(** * Schema Guardian of the semantic cache: a shallow embedding

    Embedded sources:
    - [semantic_cache/core/settings.py]                     ([Settings])
    - [semantic_cache/manager/data_manager/init_schema.py]  ([init_redis_schema],
                                                             [init_milvus_schema])
    - [server/server.py]                                    ([main])

    The Python code talks to two external stores (a Redis search index and a
    Milvus collection).  The stores are modelled as finite maps held in a
    [World]; every store call, log line and the start of the HTTP listener
    is appended to a trace, so that "no further store operation" and
    "the listener is never started" are statements about that trace.
    Python exceptions are the [Raise] outcome of a state-and-error monad;
    state changes made before an exception is raised persist, as in Python. *)

From Stdlib Require Import ZArith String Ascii List Bool.
From stdpp Require Import base option gmap strings list fin_maps.

Open Scope Z_scope.
Open Scope string_scope.
Open Scope list_scope.

(* ===================================================================== *)
(** ** Configuration: [semantic_cache/core/settings.py]                   *)
(* ===================================================================== *)

(** The seven annotated attributes of [class Settings(BaseSettings)]. *)
Record Settings := {
  REDIS_HOST : string;
  REDIS_PORT : Z;
  REDIS_INDEX_NAME : string;
  MILVUS_HOST : string;
  MILVUS_PORT : Z;
  MILVUS_COLLECTION_NAME : string;
  VECTOR_DIM : Z
}.

(* ===================================================================== *)
(** ** Exceptions                                                          *)
(* ===================================================================== *)

(** Exception classes.  [ConnectionError] and [ResponseError] are the
    redis-py subclasses of [RedisError] the server model raises; a handler
    [except RedisError] catches the three of them.  [TypeError] is the
    built-in one; no handler of these files catches it. *)
Inductive ExnClass :=
| RedisError | ConnectionError | ResponseError
| MilvusException
| ValidationError
| TypeError.

Definition isinstance_RedisError (c : ExnClass) : bool :=
  match c with
  | RedisError | ConnectionError | ResponseError => true
  | _ => false
  end.

Definition isinstance_MilvusException (c : ExnClass) : bool :=
  match c with
  | MilvusException => true
  | _ => false
  end.

(** Exception messages.  Each f-string of the source is a constructor that
    keeps the interpolated values; the remaining constructors are the
    messages of the stores themselves. *)
Inductive Msg :=
(* raised by the stores *)
| MsgConnectionRefused (host : string) (port : Z)
| MsgUnknownIndexName (name : string)
| MsgIndexAlreadyExists
| MsgNoConnection (alias : string)
| MsgCollectionNotExist (name : string)
| MsgSchemaInconsistent (name : string)
| MsgNoSuchField (field : string)
(* init_schema.py, Redis part *)
| MsgRedisConnectionFailed (e : Msg)
    (* f"Redis connection failed: {e}" *)
| MsgRedisSchemaMismatch (expected found : gset string)
    (* f"Redis index schema mismatch. Expected {required_fields}, found {attributes}" *)
| MsgRedisCreateFailed (e : Msg)
    (* f"Failed to create Redis index: {e}" *)
(* init_schema.py, Milvus part *)
| MsgMilvusConnectionFailed (e : Msg)
    (* f"Milvus connection failed: {e}" *)
| MsgCourseIdNotPartitionKey
    (* "Milvus schema invalid: 'course_id' must be a partition key" *)
| MsgMissingVectorField
    (* "Milvus schema invalid: missing 'vector' field" *)
| MsgVectorDimMismatch (expected : Z) (found : option Z)
    (* f"Vector dimension mismatch: expected {..}, found {..}" *)
| MsgMilvusCreateFailed (e : Msg)
    (* f"Failed to create Milvus collection: {e}" *)
(* settings.py *)
| MsgSettingsInvalid (fields : list string)
(* raised by the interpreter on [v[key]] with a [str] key *)
| MsgListIndices
    (* "list indices must be integers or slices, not str" *)
| MsgByteIndices
    (* "byte indices must be integers or slices, not str" *)
| MsgNotSubscriptable
    (* "'int' object is not subscriptable" *).

Record Exn := mkExn { exn_class : ExnClass; exn_msg : Msg }.

(* ===================================================================== *)
(** ** Redis search: field declarations and the server's index table       *)
(* ===================================================================== *)

(** Values of the attribute dictionary passed to [VectorField]. *)
Inductive AttrVal :=
| AStr (s : string)
| AInt (n : Z).

(** [redis.commands.search.field]: the field classes. *)
Inductive RedisField :=
| TagField (name : string)
| NumericField (name : string)
| TextField (name : string)
| VectorField (name : string) (algorithm : string)
              (attributes : list (string * AttrVal)).

Definition field_name (f : RedisField) : string :=
  match f with
  | TagField n | NumericField n | TextField n | VectorField n _ _ => n
  end.

Inductive IndexType := HASH | JSON.

Record IndexDefinition := {
  prefix : list string;
  index_type : IndexType
}.

(** What the server keeps for one search index. *)
Record RedisIndex := {
  ix_schema : list RedisField;
  ix_definition : IndexDefinition;
  ix_stopwords : list string
}.

(** The values found in the answer of FT.INFO as this client hands them
    over.  The client is built with [decode_responses=False] and speaks
    the default protocol, so [info()] pairs up the top level of the reply
    only: below it there are byte strings, integers and lists of these. *)
#[local] Unset Elimination Schemes.
Inductive PyVal :=
| PyBytes (b : string)
| PyInt (n : Z)
| PyList (items : list PyVal).
#[local] Set Elimination Schemes.

(** The answer of [info()]: a dictionary with [str] keys, of which the
    code reads ["attributes"]. *)
Record IndexInfo := {
  index_name : string;
  attributes : list PyVal
}.

Definition field_type (f : RedisField) : string :=
  match f with
  | TagField _ => "TAG"
  | NumericField _ => "NUMERIC"
  | TextField _ => "TEXT"
  | VectorField _ _ _ => "VECTOR"
  end.

(** One entry of [info["attributes"]]: the flat list
    [[b"identifier", name, b"attribute", name, b"type", type, ...]]; the
    options that follow the type are not listed. *)
Definition attr_info (f : RedisField) : PyVal :=
  PyList [ PyBytes "identifier"; PyBytes (field_name f);
           PyBytes "attribute"; PyBytes (field_name f);
           PyBytes "type"; PyBytes (field_type f) ].

(* ===================================================================== *)
(** ** Milvus: field schemas, collections                                  *)
(* ===================================================================== *)

Inductive DataType := INT32 | INT64 | VARCHAR | FLOAT_VECTOR.

(** [pymilvus.FieldSchema]; keyword arguments that are not given are
    [false] / [None] / the empty string. *)
Record FieldSchema := {
  name : string;
  dtype : DataType;
  is_primary : bool;
  auto_id : bool;
  is_partition_key : bool;
  dim : option Z;
  max_length : option Z;
  fdescription : string
}.

Record CollectionSchema := {
  fields : list FieldSchema;
  description : string
}.

Record IndexParams := {
  metric_type : string;
  index_kind : string;                 (* the "index_type" key *)
  params : list (string * Z)
}.

(** What the server keeps for one collection. *)
Record MilvusCollection := {
  coll_schema : CollectionSchema;
  consistency_level : string;
  coll_indexes : list (string * IndexParams)
}.

(** The client-side [Collection] object. *)
Record Collection := {
  col_name : string;
  schema : CollectionSchema
}.

(* ===================================================================== *)
(** ** The world and the trace                                             *)
(* ===================================================================== *)

Inductive Event :=
| EvRedisPing (host : string) (port : Z)
| EvFtInfo (index : string)
| EvFtCreateIndex (index : string)
| EvMilvusConnect (host : string) (port : Z)
| EvHasCollection (name : string)
| EvCollectionOpen (name : string)
| EvCollectionCreate (name : string)
| EvCollectionCreateIndex (name field : string)
| EvLog (fmt : string) (args : list string)
| EvAddMiddleware
| EvUvicornRun (port : Z).

(** Servers are addressed by (host, port).  [milvus_conns] is pymilvus's
    process-wide table of connection aliases. *)
Record World := {
  redis_net : gmap (string * Z) (gmap string RedisIndex);
  milvus_net : gmap (string * Z) (gmap string MilvusCollection);
  milvus_conns : gmap string (string * Z);
  trace : list Event
}.

Definition emit (e : Event) (w : World) : World :=
  {| redis_net := redis_net w; milvus_net := milvus_net w;
     milvus_conns := milvus_conns w; trace := trace w ++ [e] |}.

Definition set_redis_net (r : gmap (string * Z) (gmap string RedisIndex))
    (w : World) : World :=
  {| redis_net := r; milvus_net := milvus_net w;
     milvus_conns := milvus_conns w; trace := trace w |}.

Definition set_milvus_net (m : gmap (string * Z) (gmap string MilvusCollection))
    (w : World) : World :=
  {| redis_net := redis_net w; milvus_net := m;
     milvus_conns := milvus_conns w; trace := trace w |}.

Definition set_milvus_conns (c : gmap string (string * Z)) (w : World) : World :=
  {| redis_net := redis_net w; milvus_net := milvus_net w;
     milvus_conns := c; trace := trace w |}.

(* ===================================================================== *)
(** ** The monad of Python statements                                      *)
(* ===================================================================== *)

Inductive Outcome (A : Type) :=
| Ok (a : A)
| Raise (e : Exn).
Arguments Ok {A} a.
Arguments Raise {A} e.

Definition Py (A : Type) : Type := World -> Outcome A * World.

Definition ret {A} (a : A) : Py A := fun w => (Ok a, w).

Definition raise {A} (c : ExnClass) (m : Msg) : Py A :=
  fun w => (Raise (mkExn c m), w).

Definition bind {A B} (m : Py A) (k : A -> Py B) : Py B :=
  fun w =>
    match m w with
    | (Ok a, w') => k a w'
    | (Raise e, w') => (Raise e, w')
    end.

Declare Scope py_scope.
Delimit Scope py_scope with py.
Notation "x <- m ;; k" := (bind m (fun x => k))
  (at level 20, m at level 99, k at level 200, only parsing) : py_scope.
Notation "m ;; k" := (bind m (fun _ => k))
  (at level 100, k at level 200, right associativity) : py_scope.

(** [try: body except C as e: handler e].  The handler runs in the world
    the body left behind. *)
Definition try_except {A} (body : Py A) (catches : ExnClass -> bool)
    (handler : Exn -> Py A) : Py A :=
  fun w =>
    match body w with
    | (Ok a, w') => (Ok a, w')
    | (Raise e, w') =>
        if catches (exn_class e) then handler e w' else (Raise e, w')
    end.

Definition tell (e : Event) : Py unit := fun w => (Ok tt, emit e w).

(** [logger.info(fmt, *args)] *)
Definition logger_info (fmt : string) (args : list string) : Py unit :=
  tell (EvLog fmt args).

(** [v[key]] for a [str] key, on the values of [PyVal]: none of them has
    entries under [str] keys, and each refuses in its own words. *)
Definition getitem_str (v : PyVal) (key : string) : Py string :=
  match v with
  | PyList _ => raise TypeError MsgListIndices
  | PyBytes _ => raise TypeError MsgByteIndices
  | PyInt _ => raise TypeError MsgNotSubscriptable
  end.

(** [{v[key] for v in vs}]: the elements are visited in order and the
    first exception ends the comprehension. *)
Fixpoint set_of_items (key : string) (vs : list PyVal) : Py (gset string) :=
  match vs with
  | [] => ret ∅
  | v :: rest =>
      (x <- getitem_str v key ;;
       s <- set_of_items key rest ;;
       ret ({[ x ]} ∪ s))%py
  end.

(* ===================================================================== *)
(** ** The Redis client                                                    *)
(* ===================================================================== *)

(** [Redis(host=..., port=..., decode_responses=False)] only records the
    address; no connection is made before the first command. *)
Record RedisClient := { r_host : string; r_port : Z }.

Definition Redis (host : string) (port : Z) : RedisClient :=
  {| r_host := host; r_port := port |}.

Definition redis_server (c : RedisClient) (w : World)
    : option (gmap string RedisIndex) :=
  redis_net w !! (r_host c, r_port c).

Definition refused {A} (c : RedisClient) : Py A :=
  raise ConnectionError (MsgConnectionRefused (r_host c) (r_port c)).

(** [redis.ping()] *)
Definition ping (c : RedisClient) : Py unit :=
  (tell (EvRedisPing (r_host c) (r_port c)) ;;
   fun w => match redis_server c w with
            | Some _ => ret tt w
            | None => refused c w
            end)%py.

(** [redis.ft(index).info()]: FT.INFO answers with an error for an unknown
    index name. *)
Definition ft_info (c : RedisClient) (index : string) : Py IndexInfo :=
  (tell (EvFtInfo index) ;;
   fun w => match redis_server c w with
            | None => refused c w
            | Some srv =>
                match srv !! index with
                | None => raise ResponseError (MsgUnknownIndexName index) w
                | Some ix =>
                    ret {| index_name := index;
                           attributes := map attr_info (ix_schema ix) |} w
                end
            end)%py.

(** [redis.ft(index).create_index(schema, definition=..., stopwords=...)]:
    FT.CREATE answers with an error when the index name is taken. *)
Definition ft_create_index (c : RedisClient) (index : string)
    (sch : list RedisField) (definition : IndexDefinition)
    (stopwords : list string) : Py unit :=
  (tell (EvFtCreateIndex index) ;;
   fun w => match redis_server c w with
            | None => refused c w
            | Some srv =>
                match srv !! index with
                | Some _ => raise ResponseError MsgIndexAlreadyExists w
                | None =>
                    let ix := {| ix_schema := sch; ix_definition := definition;
                                 ix_stopwords := stopwords |} in
                    (Ok tt,
                     set_redis_net
                       (<[(r_host c, r_port c) := <[index := ix]> srv]>
                          (redis_net w)) w)
                end
            end)%py.

(* ===================================================================== *)
(** ** [init_redis_schema]                                                 *)
(* ===================================================================== *)

Definition required_fields : gset string :=
  {[ "course_id"; "vector"; "access_count"; "last_accessed" ]}.

(** The [schema] tuple built in the handler. *)
Definition redis_schema (settings : Settings) : list RedisField :=
  [ TagField "course_id";
    VectorField "vector" "HNSW"
      [ ("TYPE", AStr "FLOAT32");
        ("DIM", AInt (VECTOR_DIM settings));
        ("DISTANCE_METRIC", AStr "COSINE");
        ("M", AInt 16);
        ("EF_CONSTRUCTION", AInt 200) ];
    NumericField "access_count";
    NumericField "last_accessed" ].

Definition redis_definition : IndexDefinition :=
  {| prefix := ["cache:"]; index_type := HASH |}.

Definition init_redis_schema (settings : Settings) : Py unit :=
  let redis := Redis (REDIS_HOST settings) (REDIS_PORT settings) in
  (try_except
     (ping redis)
     isinstance_RedisError
     (fun e => raise RedisError (MsgRedisConnectionFailed (exn_msg e))) ;;
   try_except
     (info <- ft_info redis (REDIS_INDEX_NAME settings) ;;
      logger_info "[Redis] Index '%s' already exists"
                  [REDIS_INDEX_NAME settings] ;;
      attributes <- set_of_items "attribute" (attributes info) ;;
      if negb (bool_decide (required_fields ⊆ attributes)) then
        raise RedisError (MsgRedisSchemaMismatch required_fields attributes)
      else
        logger_info "[Redis] Schema validation OK" [])
     isinstance_RedisError
     (fun _ =>
        logger_info "[Redis] Creating index '%s'" [REDIS_INDEX_NAME settings] ;;
        let schema := redis_schema settings in
        let definition := redis_definition in
        try_except
          (ft_create_index redis (REDIS_INDEX_NAME settings)
                           schema definition [] ;;
           logger_info "[Redis] Index created successfully" [])
          isinstance_RedisError
          (fun e => raise RedisError (MsgRedisCreateFailed (exn_msg e)))))%py.

(* ===================================================================== *)
(** ** The Milvus client                                                   *)
(* ===================================================================== *)

(** [connections.connect(alias=..., host=..., port=...)].  The alias table
    of a process that has just started is empty, which is where [main]
    calls this; an alias that is already bound is bound anew. *)
Definition connections_connect (alias host : string) (port : Z) : Py unit :=
  (tell (EvMilvusConnect host port) ;;
   fun w => match milvus_net w !! (host, port) with
            | Some _ =>
                (Ok tt,
                 set_milvus_conns (<[alias := (host, port)]> (milvus_conns w)) w)
            | None => raise MilvusException (MsgConnectionRefused host port) w
            end)%py.

(** Calls that name no alias use the connection registered as "default". *)
Definition with_default_connection {A}
    (k : string * Z -> gmap string MilvusCollection -> Py A) : Py A :=
  fun w =>
    match milvus_conns w !! "default" with
    | None => raise MilvusException (MsgNoConnection "default") w
    | Some addr =>
        match milvus_net w !! addr with
        | None => raise MilvusException (MsgConnectionRefused addr.1 addr.2) w
        | Some srv => k addr srv w
        end
    end.

(** [utility.has_collection(name)] *)
Definition has_collection (name : string) : Py bool :=
  (tell (EvHasCollection name) ;;
   with_default_connection
     (fun _ srv => ret (bool_decide (is_Some (srv !! name)))))%py.

#[global] Instance DataType_eq_dec : EqDecision DataType.
Proof. solve_decision. Defined.
#[global] Instance FieldSchema_eq_dec : EqDecision FieldSchema.
Proof. solve_decision. Defined.
#[global] Instance CollectionSchema_eq_dec : EqDecision CollectionSchema.
Proof. solve_decision. Defined.

(** [Collection(name)] opens an existing collection and fails when there is
    none; [Collection(name, schema=..., consistency_level=...)] creates the
    collection when the name is free and otherwise insists on the stored
    schema being the one given.  The server is taken to accept the schema
    and the name it is given; what it refuses (a dimension outside its
    range, an empty name) is not modelled. *)
Definition Collection_open (name : string) : Py Collection :=
  (tell (EvCollectionOpen name) ;;
   with_default_connection
     (fun _ srv =>
        match srv !! name with
        | Some c => ret {| col_name := name; schema := coll_schema c |}
        | None => raise MilvusException (MsgCollectionNotExist name)
        end))%py.

Definition Collection_new (name : string) (sch : CollectionSchema)
    (level : string) : Py Collection :=
  (tell (EvCollectionCreate name) ;;
   with_default_connection
     (fun addr srv =>
        match srv !! name with
        | Some c =>
            if decide (coll_schema c = sch)
            then ret {| col_name := name; schema := sch |}
            else raise MilvusException (MsgSchemaInconsistent name)
        | None =>
            fun w =>
              let c := {| coll_schema := sch; consistency_level := level;
                          coll_indexes := [] |} in
              (Ok {| col_name := name; schema := sch |},
               set_milvus_net (<[addr := <[name := c]> srv]> (milvus_net w)) w)
        end))%py.

Definition has_field (field : string) (sch : CollectionSchema) : bool :=
  existsb (fun f => bool_decide (name f = field)) (fields sch).

(** [col.create_index(field, index_params)] *)
Definition create_index (col : Collection) (field : string)
    (ip : IndexParams) : Py unit :=
  (tell (EvCollectionCreateIndex (col_name col) field) ;;
   with_default_connection
     (fun addr srv =>
        match srv !! col_name col with
        | None => raise MilvusException (MsgCollectionNotExist (col_name col))
        | Some c =>
            if has_field field (coll_schema c) then
              fun w =>
                let c' := {| coll_schema := coll_schema c;
                             consistency_level := consistency_level c;
                             coll_indexes := coll_indexes c ++ [(field, ip)] |} in
                (Ok tt,
                 set_milvus_net
                   (<[addr := <[col_name col := c']> srv]> (milvus_net w)) w)
            else raise MilvusException (MsgNoSuchField field)
        end))%py.

(* ===================================================================== *)
(** ** [init_milvus_schema]                                                *)
(* ===================================================================== *)

(** [{f.name: f for f in col.schema.fields}]: a later field of the same
    name replaces an earlier one. *)
Definition fields_by_name (fs : list FieldSchema) : gmap string FieldSchema :=
  foldl (fun m f => <[name f := f]> m) ∅ fs.

(** The [fields] list of the creation branch. *)
Definition milvus_fields (settings : Settings) : list FieldSchema :=
  [ {| name := "id"; dtype := INT64; is_primary := true; auto_id := true;
       is_partition_key := false; dim := None; max_length := None;
       fdescription := "" |};
    {| name := "course_id"; dtype := INT64; is_primary := false;
       auto_id := false; is_partition_key := true; dim := None;
       max_length := None; fdescription := "" |};
    {| name := "vector"; dtype := FLOAT_VECTOR; is_primary := false;
       auto_id := false; is_partition_key := false;
       dim := Some (VECTOR_DIM settings); max_length := None;
       fdescription := "" |};
    {| name := "doc_ref_id"; dtype := VARCHAR; is_primary := false;
       auto_id := false; is_partition_key := false; dim := None;
       max_length := Some 128; fdescription := "" |};
    {| name := "chunk_index"; dtype := INT32; is_primary := false;
       auto_id := false; is_partition_key := false; dim := None;
       max_length := None; fdescription := "" |};
    {| name := "created_at"; dtype := INT64; is_primary := false;
       auto_id := false; is_partition_key := false; dim := None;
       max_length := None; fdescription := "Unix timestamp" |} ].

Definition milvus_schema (settings : Settings) : CollectionSchema :=
  {| fields := milvus_fields settings;
     description := "LMS secured semantic course content" |}.

Definition index_params : IndexParams :=
  {| metric_type := "COSINE";
     index_kind := "HNSW";
     params := [("M", 16); ("efConstruction", 200)] |}.

(** The first [if] of the validation block. *)
Definition course_id_not_partition_key (fs : gmap string FieldSchema) : bool :=
  match fs !! "course_id" with
  | None => true
  | Some f => negb (is_partition_key f)
  end.

(** The validation block of the already-exists branch, after [fields] has
    been built. *)
Definition validate_milvus_fields (settings : Settings)
    (fs : gmap string FieldSchema) : Py unit :=
  if course_id_not_partition_key fs then
    raise MilvusException MsgCourseIdNotPartitionKey
  else
    match fs !! "vector" with
    | None => raise MilvusException MsgMissingVectorField
    | Some v =>
        if negb (bool_decide (dim v = Some (VECTOR_DIM settings))) then
          raise MilvusException
                (MsgVectorDimMismatch (VECTOR_DIM settings) (dim v))
        else
          logger_info "[Milvus] Schema validation OK" []
    end.

Definition init_milvus_schema (settings : Settings) : Py unit :=
  (try_except
     (connections_connect "default" (MILVUS_HOST settings)
                          (MILVUS_PORT settings))
     isinstance_MilvusException
     (fun e => raise MilvusException (MsgMilvusConnectionFailed (exn_msg e))) ;;
   exists_ <- has_collection (MILVUS_COLLECTION_NAME settings) ;;
   if (exists_ : bool) then
     logger_info "[Milvus] Collection '%s' already exists"
                 [MILVUS_COLLECTION_NAME settings] ;;
     col <- Collection_open (MILVUS_COLLECTION_NAME settings) ;;
     let fields := fields_by_name (fields (schema col)) in
     validate_milvus_fields settings fields
   else
     logger_info "[Milvus] Creating collection '%s'"
                 [MILVUS_COLLECTION_NAME settings] ;;
     let schema := milvus_schema settings in
     try_except
       (col <- Collection_new (MILVUS_COLLECTION_NAME settings) schema
                              "Strong" ;;
        create_index col "vector" index_params ;;
        logger_info "[Milvus] Collection created and indexed" [])
       isinstance_MilvusException
       (fun e => raise MilvusException (MsgMilvusCreateFailed (exn_msg e))))%py.

(* ===================================================================== *)
(** ** [server.py]: [main]                                                 *)
(* ===================================================================== *)

(** [app.add_middleware(CORSMiddleware, ...)] *)
Definition add_middleware : Py unit := tell EvAddMiddleware.

(** [uvicorn.run(app, port=...)]: the HTTP listener. *)
Definition uvicorn_run (port : Z) : Py unit := tell (EvUvicornRun port).

Definition main (settings : Settings) : Py unit :=
  (add_middleware ;;
   init_redis_schema settings ;;
   init_milvus_schema settings ;;
   uvicorn_run 8000)%py.

(** The listener was started somewhere in the trace. *)
Definition serving (w : World) : Prop := exists p, EvUvicornRun p ∈ trace w.

(* ===================================================================== *)
(** ** [settings = Settings()]                                             *)
(* ===================================================================== *)

(** The attributes annotated [int]; the other four are annotated [str]. *)
Definition int_fields : list string :=
  ["REDIS_PORT"; "MILVUS_PORT"; "VECTOR_DIM"].

(** The attributes in declaration order. *)
Definition setting_names : list string :=
  ["REDIS_HOST"; "REDIS_PORT"; "REDIS_INDEX_NAME";
   "MILVUS_HOST"; "MILVUS_PORT"; "MILVUS_COLLECTION_NAME"; "VECTOR_DIM"].

Section SettingsSource.

(** The conversion applied to the raw text of an attribute annotated
    [int]; it belongs to pydantic, not to this repository. *)
Variable parse_int : string -> option Z.

(** The settings sources deliver raw text per name, matched
    case-sensitively: [environ] is the process environment, [dotenv] the
    entries read from the [.env] file ([Config.env_file]).  Where both have a
    name the environment wins, so the functions below read the merged
    map [environ ∪ dotenv].  No attribute declares a default. *)
Definition read_str (env : gmap string string) (k : string) : option string :=
  env !! k.

Definition read_int (env : gmap string string) (k : string) : option Z :=
  match env !! k with
  | Some raw => parse_int raw
  | None => None
  end.

Definition field_ok (env : gmap string string) (k : string) : bool :=
  if bool_decide (k ∈ int_fields)
  then bool_decide (is_Some (read_int env k))
  else bool_decide (is_Some (read_str env k)).

(** Whether the [.env] source hands an entry that names no attribute on
    to validation, given its raw value; it belongs to pydantic-settings,
    whose releases differ on entries with an empty value. *)
Variable forwards_extra : string -> bool.

(** The names in the [.env] file that are no attribute of [Settings] and
    are handed on.  [Config] sets no [extra], so they are refused; names
    in the process environment that are no attribute are not looked
    at. *)
Definition extra_keys (dotenv : gmap string string) : list string :=
  (filter (fun kv => (kv.1 ∉ setting_names) /\ forwards_extra kv.2 = true)
          (map_to_list dotenv)).*1.

(** [Settings()]: every attribute is read; the attributes that are
    missing or do not convert, and the names refused, are reported
    together. *)
Definition Settings_new (environ dotenv : gmap string string)
    : Outcome Settings :=
  let env := environ ∪ dotenv in
  match extra_keys dotenv,
        read_str env "REDIS_HOST", read_int env "REDIS_PORT",
        read_str env "REDIS_INDEX_NAME",
        read_str env "MILVUS_HOST", read_int env "MILVUS_PORT",
        read_str env "MILVUS_COLLECTION_NAME", read_int env "VECTOR_DIM" with
  | [], Some rh, Some rp, Some ri, Some mh, Some mp, Some mc, Some vd =>
      Ok {| REDIS_HOST := rh; REDIS_PORT := rp; REDIS_INDEX_NAME := ri;
            MILVUS_HOST := mh; MILVUS_PORT := mp;
            MILVUS_COLLECTION_NAME := mc; VECTOR_DIM := vd |}
  | _, _, _, _, _, _, _, _ =>
      Raise (mkExn ValidationError
               (MsgSettingsInvalid
                  (filter (fun k => negb (field_ok env k)) setting_names
                   ++ extra_keys dotenv)))
  end.

(** Running [server.py] as a script: importing [init_schema] evaluates
    [settings = Settings()] before [main] is called. *)
Definition server_process (environ dotenv : gmap string string) : Py unit :=
  match Settings_new environ dotenv with
  | Ok settings => main settings
  | Raise e => fun w => (Raise e, w)
  end.

End SettingsSource.

(** Optionally signed decimal numerals, the least any conversion to [int]
    accepts; used to run [Settings_new] on concrete environments. *)
Definition digit_of (c : Ascii.ascii) : option Z :=
  let n := Z.of_nat (Ascii.nat_of_ascii c) in
  if ((48 <=? n)%Z && (n <=? 57)%Z)%bool then Some (n - 48) else None.

Fixpoint digits_value (acc : Z) (s : string) : option Z :=
  match s with
  | EmptyString => Some acc
  | String c rest =>
      match digit_of c with
      | Some d => digits_value (10 * acc + d) rest
      | None => None
      end
  end.

Definition decimal_int (s : string) : option Z :=
  match s with
  | EmptyString => None
  | String "-"%char (String c rest) => Z.opp <$> digits_value 0 (String c rest)
  | String "+"%char (String c rest) => digits_value 0 (String c rest)
  | _ => digits_value 0 s
  end.

(** Entries with a non-empty value, which every release hands on; used
    like [decimal_int]. *)
Definition nonempty_value (raw : string) : bool := negb (String.eqb raw "").

(* ===================================================================== *)
(** ** Vocabulary of the statements                                        *)
(* ===================================================================== *)

(** The world after the events [es] have been appended to the trace. *)
Definition emits (es : list Event) (w : World) : World :=
  {| redis_net := redis_net w; milvus_net := milvus_net w;
     milvus_conns := milvus_conns w; trace := trace w ++ es |}.

(** The attribute names FT.INFO reports for a stored index. *)
Definition index_attributes (ix : RedisIndex) : gset string :=
  list_to_set (map field_name (ix_schema ix)).

(** Events that change a store. *)
Definition is_write (e : Event) : bool :=
  match e with
  | EvFtCreateIndex _ | EvCollectionCreate _ | EvCollectionCreateIndex _ _ => true
  | _ => false
  end.

(** The attribute dictionary of the vector field of a Redis schema. *)
Fixpoint vector_attributes (sch : list RedisField)
    : option (list (string * AttrVal)) :=
  match sch with
  | [] => None
  | VectorField "vector" _ attrs :: _ => Some attrs
  | _ :: rest => vector_attributes rest
  end.

(** Lookup in a Python dict literal written as an association list. *)
Fixpoint assoc {V} (k : string) (l : list (string * V)) : option V :=
  match l with
  | [] => None
  | (k', v) :: rest => if String.eqb k k' then Some v else assoc k rest
  end.

(** *** Concrete configurations and stores, to run the definitions on *)

Definition settings0 : Settings :=
  {| REDIS_HOST := "redis"; REDIS_PORT := 6379; REDIS_INDEX_NAME := "cache_idx";
     MILVUS_HOST := "milvus"; MILVUS_PORT := 19530;
     MILVUS_COLLECTION_NAME := "kb"; VECTOR_DIM := 384 |}.

(** Both servers are up and hold nothing. *)
Definition fresh_world : World :=
  {| redis_net := {[ ("redis", 6379) := ∅ ]};
     milvus_net := {[ ("milvus", 19530) := ∅ ]};
     milvus_conns := ∅; trace := [] |}.

(** [m] moves every world to an [R]-related one, whatever its outcome. *)
Definition respects (R : World -> World -> Prop) {A} (m : Py A) : Prop :=
  forall w, R w (m w).2.

(** Every event but the start of the HTTP listener. *)
Definition not_listener (e : Event) : bool :=
  match e with
  | EvUvicornRun _ => false
  | _ => true
  end.

(** The trace only grew, and only by events satisfying [P]. *)
Definition extends (P : Event -> bool) (w w' : World) : Prop :=
  exists es, trace w' = trace w ++ es /\ forallb P es = true.

(** A step of the Redis initialiser: Milvus and the connection table are
    untouched and the listener is not started. *)
Definition redis_step (w w' : World) : Prop :=
  milvus_net w' = milvus_net w /\ milvus_conns w' = milvus_conns w /\
  extends not_listener w w'.

(** A step of the Milvus initialiser: Redis is untouched and the listener
    is not started. *)
Definition milvus_step (w w' : World) : Prop :=
  redis_net w' = redis_net w /\ extends not_listener w w'.

(** The world once the "default" alias points at the configured server. *)
Definition connected (settings : Settings) (w : World) : World :=
  set_milvus_conns
    (<["default" := (MILVUS_HOST settings, MILVUS_PORT settings)]>
       (milvus_conns w)) w.

(** An existing collection passes the validation block. *)
Definition milvus_valid (settings : Settings) (c : MilvusCollection) : Prop :=
  let fs := fields_by_name (fields (coll_schema c)) in
  (exists f, fs !! "course_id" = Some f /\ is_partition_key f = true) /\
  (exists v, fs !! "vector" = Some v /\ dim v = Some (VECTOR_DIM settings)).

(** The collection as the creation branch leaves it. *)
Definition created_collection (settings : Settings) : MilvusCollection :=
  {| coll_schema := milvus_schema settings;
     consistency_level := "Strong";
     coll_indexes := [("vector", index_params)] |}.

(** Messages that report a store whose schema is not the expected one. *)
Definition is_schema_mismatch (m : Msg) : bool :=
  match m with
  | MsgRedisSchemaMismatch _ _ | MsgCourseIdNotPartitionKey
  | MsgMissingVectorField | MsgVectorDimMismatch _ _ => true
  | _ => false
  end.

(** No store was changed and no write was attempted. *)
Definition read_only_step (w w' : World) : Prop :=
  redis_net w' = redis_net w /\ milvus_net w' = milvus_net w /\
  extends (fun e => negb (is_write e)) w w'.

(** A cache index that was created without the two usage counters. *)
Definition index_without_counters : RedisIndex :=
  {| ix_schema :=
       [ TagField "course_id";
         VectorField "vector" "HNSW"
           [("TYPE", AStr "FLOAT32"); ("DIM", AInt 384);
            ("DISTANCE_METRIC", AStr "COSINE")] ];
     ix_definition := {| prefix := ["cache:"]; index_type := HASH |};
     ix_stopwords := [] |}.

(** The Redis server holds that index under the configured name. *)
Definition world_redis_mismatch : World :=
  {| redis_net := {[ ("redis", 6379) := {[ "cache_idx" := index_without_counters ]} ]};
     milvus_net := {[ ("milvus", 19530) := ∅ ]};
     milvus_conns := ∅; trace := [] |}.

(** A knowledge collection left by a deployment that was configured for
    768 components, while [settings0] says 384. *)
Definition settings_768 : Settings :=
  {| REDIS_HOST := "redis"; REDIS_PORT := 6379; REDIS_INDEX_NAME := "cache_idx";
     MILVUS_HOST := "milvus"; MILVUS_PORT := 19530;
     MILVUS_COLLECTION_NAME := "kb"; VECTOR_DIM := 768 |}.

Definition collection_dim_768 : MilvusCollection :=
  created_collection settings_768.

(** The Milvus server holds that collection under the configured name. *)
Definition world_milvus_dim_768 : World :=
  {| redis_net := {[ ("redis", 6379) := ∅ ]};
     milvus_net := {[ ("milvus", 19530) := {[ "kb" := collection_dim_768 ]} ]};
     milvus_conns := ∅; trace := [] |}.

(** A knowledge collection with the primary key, the partition key and
    the vector, and none of [doc_ref_id], [chunk_index], [created_at]. *)
Definition collection_three_fields : MilvusCollection :=
  {| coll_schema :=
       {| fields :=
            [ {| name := "id"; dtype := INT64; is_primary := true;
                 auto_id := true; is_partition_key := false; dim := None;
                 max_length := None; fdescription := "" |};
              {| name := "course_id"; dtype := INT64; is_primary := false;
                 auto_id := false; is_partition_key := true; dim := None;
                 max_length := None; fdescription := "" |};
              {| name := "vector"; dtype := FLOAT_VECTOR; is_primary := false;
                 auto_id := false; is_partition_key := false;
                 dim := Some 384; max_length := None; fdescription := "" |} ];
          description := "" |};
     consistency_level := "Strong";
     coll_indexes := [("vector", index_params)] |}.

(** The Milvus server holds that collection under the configured name. *)
Definition world_milvus_three_fields : World :=
  {| redis_net := {[ ("redis", 6379) := ∅ ]};
     milvus_net := {[ ("milvus", 19530) := {[ "kb" := collection_three_fields ]} ]};
     milvus_conns := ∅; trace := [] |}.

(** [M] and [EF_CONSTRUCTION] of the configured cache index, read back
    from the Redis server. *)
Definition stored_redis_hnsw (settings : Settings) (w : World)
    : option (AttrVal * AttrVal) :=
  srv ← redis_net w !! (REDIS_HOST settings, REDIS_PORT settings);
  ix ← srv !! REDIS_INDEX_NAME settings;
  attrs ← vector_attributes (ix_schema ix);
  m ← assoc "M" attrs;
  ef ← assoc "EF_CONSTRUCTION" attrs;
  Some (m, ef).

(** [M] and [efConstruction] of the index over [vector] of the configured
    knowledge collection, read back from the Milvus server. *)
Definition stored_milvus_hnsw (settings : Settings) (w : World)
    : option (Z * Z) :=
  srv ← milvus_net w !! (MILVUS_HOST settings, MILVUS_PORT settings);
  c ← srv !! MILVUS_COLLECTION_NAME settings;
  ip ← assoc "vector" (coll_indexes c);
  m ← assoc "M" (params ip);
  ef ← assoc "efConstruction" (params ip);
  Some (m, ef).

(** A second configuration, different from [settings0] in all seven
    values, and a world whose servers live at its addresses. *)
Definition settings1 : Settings :=
  {| REDIS_HOST := "10.0.0.5"; REDIS_PORT := 6380; REDIS_INDEX_NAME := "idx2";
     MILVUS_HOST := "10.0.0.6"; MILVUS_PORT := 19531;
     MILVUS_COLLECTION_NAME := "kb2"; VECTOR_DIM := 1536 |}.

Definition fresh_world1 : World :=
  {| redis_net := {[ ("10.0.0.5", 6380) := ∅ ]};
     milvus_net := {[ ("10.0.0.6", 19531) := ∅ ]};
     milvus_conns := ∅; trace := [] |}.

(** The declaration of the field [field] in a Redis schema. *)
Definition redis_field (field : string) (sch : list RedisField)
    : option RedisField :=
  List.find (fun f => String.eqb (field_name f) field) sch.




(** *** Reading the stores *)

(** The index [index] of the Redis server at [addr], if both exist. *)
Definition redis_index_at (w : World) (addr : string * Z) (index : string)
    : option RedisIndex :=
  srv ← redis_net w !! addr; srv !! index.

(** The collection [coll] of the Milvus server at [addr], if both exist. *)
Definition milvus_collection_at (w : World) (addr : string * Z) (coll : string)
    : option MilvusCollection :=
  srv ← milvus_net w !! addr; srv !! coll.

(** The configured Redis server answers and has no index of the
    configured name. *)
Definition redis_free (settings : Settings) (w : World) : Prop :=
  exists srv,
    redis_net w !! (REDIS_HOST settings, REDIS_PORT settings) = Some srv /\
    srv !! REDIS_INDEX_NAME settings = None.

(** The index of the creation branch. *)
Definition created_index (settings : Settings) : RedisIndex :=
  {| ix_schema := redis_schema settings;
     ix_definition := redis_definition;
     ix_stopwords := [] |}.

(** The configured Redis server holds, under the configured name, the
    index of the creation branch. *)
Definition redis_created (settings : Settings) (w : World) : Prop :=
  redis_index_at w (REDIS_HOST settings, REDIS_PORT settings)
                 (REDIS_INDEX_NAME settings) = Some (created_index settings).

(** The configured Milvus server answers, and the configured collection
    name is free or names a collection that passes the validation block. *)
Definition milvus_ready (settings : Settings) (w : World) : Prop :=
  exists srv,
    milvus_net w !! (MILVUS_HOST settings, MILVUS_PORT settings) = Some srv /\
    match srv !! MILVUS_COLLECTION_NAME settings with
    | None => True
    | Some c => milvus_valid settings c
    end.

(** The configured collection is there and passes the validation block. *)
Definition milvus_validated (settings : Settings) (w : World) : Prop :=
  exists c,
    milvus_collection_at w (MILVUS_HOST settings, MILVUS_PORT settings)
                         (MILVUS_COLLECTION_NAME settings) = Some c /\
    milvus_valid settings c.

(** Calls to Redis and log lines. *)
Definition redis_event (e : Event) : bool :=
  match e with
  | EvRedisPing _ _ | EvFtInfo _ | EvFtCreateIndex _ | EvLog _ _ => true
  | _ => false
  end.

(** Calls to Milvus and log lines. *)
Definition milvus_event (e : Event) : bool :=
  match e with
  | EvMilvusConnect _ _ | EvHasCollection _ | EvCollectionOpen _
  | EvCollectionCreate _ | EvCollectionCreateIndex _ _ | EvLog _ _ => true
  | _ => false
  end.

(** No server answers at any address. *)
Definition world_offline : World :=
  {| redis_net := ∅; milvus_net := ∅; milvus_conns := ∅; trace := [] |}.

(** Redis answers, Milvus does not. *)
Definition world_milvus_offline : World :=
  {| redis_net := {[ ("redis", 6379) := ∅ ]};
     milvus_net := ∅; milvus_conns := ∅; trace := [] |}.


(** An environment with all seven values, the ones of [settings0]. *)
Definition env0 : gmap string string :=
  {[ "REDIS_HOST" := "redis"; "REDIS_PORT" := "6379";
     "REDIS_INDEX_NAME" := "cache_idx";
     "MILVUS_HOST" := "milvus"; "MILVUS_PORT" := "19530";
     "MILVUS_COLLECTION_NAME" := "kb"; "VECTOR_DIM" := "384" ]}.

(* ===================================================================== *)
(** ** Basic facts about the monad and the world                           *)
(* ===================================================================== *)

(** *** Relations between the world before and after a statement *)

Section Frame.

Variable R : World -> World -> Prop.
Hypothesis R_refl : forall w, R w w.
Hypothesis R_trans : forall w1 w2 w3, R w1 w2 -> R w2 w3 -> R w1 w3.

Lemma respects_ret {A} (a : A) : respects R (ret a).
Proof. intros w. apply R_refl. Qed.

Lemma respects_raise {A} c m : respects R (@raise A c m).
Proof. intros w. apply R_refl. Qed.

Lemma respects_bind {A B} (m : Py A) (k : A -> Py B) :
  respects R m -> (forall a, respects R (k a)) -> respects R (bind m k).
Proof.
  intros Hm Hk w. unfold bind. specialize (Hm w).
  destruct (m w) as [[a|e] w']; simpl in *; [|done].
  eapply R_trans; [exact Hm | apply Hk].
Qed.

Lemma respects_try_except {A} (body : Py A) catches handler :
  respects R body -> (forall e, respects R (handler e)) ->
  respects R (try_except body catches handler).
Proof.
  intros Hb Hh w. unfold try_except. specialize (Hb w).
  destruct (body w) as [[a|e] w']; simpl in *; [done|].
  destruct (catches (exn_class e)); [|done].
  eapply R_trans; [exact Hb | apply Hh].
Qed.

Lemma respects_if {A} (b : bool) (m1 m2 : Py A) :
  respects R m1 -> respects R m2 -> respects R (if b then m1 else m2).
Proof. by destruct b. Qed.

End Frame.

(** *** What the two initialisers leave alone *)

Lemma extends_refl P w : extends P w w.
Proof. exists []. by rewrite app_nil_r. Qed.

Lemma extends_trans P w1 w2 w3 :
  extends P w1 w2 -> extends P w2 w3 -> extends P w1 w3.
Proof.
  intros (es1 & E1 & F1) (es2 & E2 & F2). exists (es1 ++ es2).
  rewrite E2, E1, <- app_assoc, forallb_app, F1, F2. done.
Qed.

Lemma extends_emit (P : Event -> bool) e w : P e = true -> extends P w (emit e w).
Proof. intros H. exists [e]. simpl. by rewrite H. Qed.

Lemma redis_step_refl w : redis_step w w.
Proof. repeat split; apply extends_refl. Qed.

Lemma redis_step_trans w1 w2 w3 :
  redis_step w1 w2 -> redis_step w2 w3 -> redis_step w1 w3.
Proof.
  intros (A1 & B1 & C1) (A2 & B2 & C2). repeat split; try congruence.
  by eapply extends_trans.
Qed.

Lemma milvus_step_refl w : milvus_step w w.
Proof. split; [done | apply extends_refl]. Qed.

Lemma milvus_step_trans w1 w2 w3 :
  milvus_step w1 w2 -> milvus_step w2 w3 -> milvus_step w1 w3.
Proof.
  intros (A1 & C1) (A2 & C2). split; [congruence | by eapply extends_trans].
Qed.

Create HintDb frame discriminated.

#[local] Hint Resolve redis_step_refl redis_step_trans
  milvus_step_refl milvus_step_trans : frame.

Ltac frame_prim :=
  intros w; cbv [bind tell ret raise refused with_default_connection];
  simpl;
  repeat (case_match; simpl);
  repeat split; simpl; try done;
  try (apply extends_emit; done).

Lemma ping_redis_step c : respects redis_step (ping c).
Proof. unfold ping, redis_server. frame_prim. Qed.

Lemma ft_info_redis_step c i : respects redis_step (ft_info c i).
Proof. unfold ft_info, redis_server. frame_prim. Qed.

Lemma ft_create_index_redis_step c i sch d sw :
  respects redis_step (ft_create_index c i sch d sw).
Proof. unfold ft_create_index, redis_server. frame_prim. Qed.

Lemma logger_info_redis_step fmt args : respects redis_step (logger_info fmt args).
Proof. unfold logger_info. frame_prim. Qed.

Lemma getitem_str_redis_step v key : respects redis_step (getitem_str v key).
Proof.
  unfold getitem_str.
  destruct v; apply (respects_raise redis_step redis_step_refl).
Qed.

Lemma set_of_items_redis_step key vs : respects redis_step (set_of_items key vs).
Proof.
  induction vs as [|v vs IH]; simpl.
  - apply (respects_ret redis_step redis_step_refl).
  - apply (respects_bind redis_step redis_step_trans);
      [apply getitem_str_redis_step | intros x].
    apply (respects_bind redis_step redis_step_trans); [exact IH | intros s].
    apply (respects_ret redis_step redis_step_refl).
Qed.

Lemma logger_info_milvus_step fmt args : respects milvus_step (logger_info fmt args).
Proof. unfold logger_info. frame_prim. Qed.

Lemma connections_connect_milvus_step a h p :
  respects milvus_step (connections_connect a h p).
Proof. unfold connections_connect. frame_prim. Qed.

Lemma has_collection_milvus_step n : respects milvus_step (has_collection n).
Proof. unfold has_collection. frame_prim. Qed.

Lemma Collection_open_milvus_step n : respects milvus_step (Collection_open n).
Proof. unfold Collection_open. frame_prim. Qed.

Lemma Collection_new_milvus_step n sch l :
  respects milvus_step (Collection_new n sch l).
Proof. unfold Collection_new. frame_prim. Qed.

Lemma create_index_milvus_step col f ip :
  respects milvus_step (create_index col f ip).
Proof. unfold create_index. frame_prim. Qed.

#[local] Hint Resolve ping_redis_step ft_info_redis_step
  ft_create_index_redis_step logger_info_redis_step set_of_items_redis_step
  logger_info_milvus_step connections_connect_milvus_step
  has_collection_milvus_step Collection_open_milvus_step
  Collection_new_milvus_step create_index_milvus_step : frame.

Ltac frame_step R Rrefl Rtrans :=
  repeat
    (lazy beta zeta;
     lazymatch goal with
     | |- respects _ (bind _ _) => apply (respects_bind R Rtrans); [| intros ?]
     | |- respects _ (try_except _ _ _) =>
         apply (respects_try_except R Rtrans); [| intros ?]
     | |- respects _ (if _ then _ else _) => apply (respects_if R)
     | |- respects _ (raise _ _) => apply (respects_raise R Rrefl)
     | |- respects _ (ret _) => apply (respects_ret R Rrefl)
     | |- _ => solve [auto with frame]
     end).

Lemma init_redis_schema_redis_step settings :
  respects redis_step (init_redis_schema settings).
Proof.
  unfold init_redis_schema.
  frame_step redis_step redis_step_refl redis_step_trans.
Qed.

Lemma init_milvus_schema_milvus_step settings :
  respects milvus_step (init_milvus_schema settings).
Proof.
  unfold init_milvus_schema, validate_milvus_fields.
  frame_step milvus_step milvus_step_refl milvus_step_trans.
  case_match; frame_step milvus_step milvus_step_refl milvus_step_trans.
Qed.

(* ===================================================================== *)
(** ** Runs of [init_redis_schema]                                         *)
(* ===================================================================== *)

Ltac run_py :=
  cbv [bind try_except tell ret raise refused logger_info
       with_default_connection]; simpl.

Ltac same_world :=
  unfold emits, emit, set_redis_net, set_milvus_net, set_milvus_conns; simpl;
  repeat rewrite <- app_assoc; simpl; try reflexivity.

Section RedisRuns.

Variable settings : Settings.
Variable w : World.

Local Abbreviation host := (REDIS_HOST settings).
Local Abbreviation port := (REDIS_PORT settings).
Local Abbreviation index := (REDIS_INDEX_NAME settings).

(** The server cannot be reached: the ping fails and nothing else is
    tried. *)
Lemma init_redis_schema_unreachable :
  redis_net w !! (host, port) = None ->
  init_redis_schema settings w =
    (Raise (mkExn RedisError
              (MsgRedisConnectionFailed (MsgConnectionRefused host port))),
     emits [EvRedisPing host port] w).
Proof.
  intros Hnet. unfold init_redis_schema, ping, redis_server. run_py.
  rewrite Hnet. simpl. f_equal.
Qed.

(** The index exists and has at least one field: reading ["attribute"]
    off the first entry of [info["attributes"]], a list, raises
    [TypeError], which [except RedisError] does not catch. *)
Lemma init_redis_schema_existing srv ix :
  redis_net w !! (host, port) = Some srv ->
  srv !! index = Some ix ->
  ix_schema ix ≠ [] ->
  init_redis_schema settings w =
    (Raise (mkExn TypeError MsgListIndices),
     emits [EvRedisPing host port; EvFtInfo index;
            EvLog "[Redis] Index '%s' already exists" [index]] w).
Proof.
  intros Hnet Hix Hsch.
  destruct (ix_schema ix) as [|f fs] eqn:Hfs; [done|].
  unfold init_redis_schema, ping, ft_info, redis_server. run_py.
  repeat (first [rewrite Hnet | rewrite Hix | rewrite Hfs]; simpl).
  run_py. f_equal. same_world.
Qed.

(** The index exists and reports no attribute at all: the set is empty,
    the mismatch error raised inside the [try] is caught by its own
    [except RedisError], and the handler goes on to FT.CREATE. *)
Lemma init_redis_schema_existing_empty srv ix :
  redis_net w !! (host, port) = Some srv ->
  srv !! index = Some ix ->
  ix_schema ix = [] ->
  init_redis_schema settings w =
    (Raise (mkExn RedisError (MsgRedisCreateFailed MsgIndexAlreadyExists)),
     emits [EvRedisPing host port; EvFtInfo index;
            EvLog "[Redis] Index '%s' already exists" [index];
            EvLog "[Redis] Creating index '%s'" [index];
            EvFtCreateIndex index] w).
Proof.
  intros Hnet Hix Hfs.
  assert (Hno : ¬ (required_fields ⊆ (∅ : gset string))).
  { apply (bool_decide_eq_false_1 _). vm_compute. reflexivity. }
  unfold init_redis_schema, ping, ft_info, ft_create_index, redis_server.
  run_py.
  repeat (first [rewrite Hnet | rewrite Hix | rewrite Hfs]; simpl).
  run_py. rewrite bool_decide_false by exact Hno. simpl.
  repeat (first [rewrite Hnet | rewrite Hix | rewrite Hfs]; simpl).
  f_equal. same_world.
Qed.

(** There is no index of that name: it is created. *)
Lemma init_redis_schema_absent srv :
  redis_net w !! (host, port) = Some srv ->
  srv !! index = None ->
  init_redis_schema settings w =
    (Ok tt,
     set_redis_net
       (<[(host, port) :=
            <[index := {| ix_schema := redis_schema settings;
                          ix_definition := redis_definition;
                          ix_stopwords := [] |}]> srv]> (redis_net w))
       (emits [EvRedisPing host port; EvFtInfo index;
               EvLog "[Redis] Creating index '%s'" [index];
               EvFtCreateIndex index;
               EvLog "[Redis] Index created successfully" []] w)).
Proof.
  intros Hnet Hix.
  unfold init_redis_schema, ping, ft_info, ft_create_index, redis_server.
  run_py.
  repeat (first [rewrite Hnet | rewrite Hix]; simpl).
  f_equal. same_world.
Qed.

End RedisRuns.

(* ===================================================================== *)
(** ** Runs of [init_milvus_schema]                                        *)
(* ===================================================================== *)

Section MilvusRuns.

Variable settings : Settings.
Variable w : World.

Local Abbreviation host := (MILVUS_HOST settings).
Local Abbreviation port := (MILVUS_PORT settings).
Local Abbreviation coll := (MILVUS_COLLECTION_NAME settings).

Lemma init_milvus_schema_unreachable :
  milvus_net w !! (host, port) = None ->
  init_milvus_schema settings w =
    (Raise (mkExn MilvusException
              (MsgMilvusConnectionFailed (MsgConnectionRefused host port))),
     emits [EvMilvusConnect host port] w).
Proof.
  intros Hnet. unfold init_milvus_schema, connections_connect. run_py.
  rewrite Hnet. simpl. f_equal.
Qed.

(** The collection exists: the run is the validation block, entered
    after four read-only calls. *)
Lemma init_milvus_schema_existing srv c :
  milvus_net w !! (host, port) = Some srv ->
  srv !! coll = Some c ->
  init_milvus_schema settings w =
    validate_milvus_fields settings
      (fields_by_name (fields (coll_schema c)))
      (connected settings
         (emits [EvMilvusConnect host port; EvHasCollection coll;
                 EvLog "[Milvus] Collection '%s' already exists" [coll];
                 EvCollectionOpen coll] w)).
Proof.
  intros Hnet Hc.
  unfold init_milvus_schema, connections_connect, has_collection,
    Collection_open.
  run_py.
  repeat (first [rewrite Hnet | rewrite Hc | rewrite lookup_insert_eq]; simpl).
  f_equal. unfold connected. same_world.
Qed.

Lemma init_milvus_schema_valid srv c :
  milvus_net w !! (host, port) = Some srv ->
  srv !! coll = Some c ->
  milvus_valid settings c ->
  init_milvus_schema settings w =
    (Ok tt,
     connected settings
       (emits [EvMilvusConnect host port; EvHasCollection coll;
               EvLog "[Milvus] Collection '%s' already exists" [coll];
               EvCollectionOpen coll;
               EvLog "[Milvus] Schema validation OK" []] w)).
Proof.
  intros Hnet Hc [(f & Hf & Hpk) (v & Hv & Hdim)].
  rewrite (init_milvus_schema_existing srv c) by done.
  unfold validate_milvus_fields, course_id_not_partition_key.
  simpl in Hf, Hv. rewrite Hf, Hpk. simpl. rewrite Hv.
  rewrite bool_decide_true by done. simpl.
  unfold logger_info, tell. f_equal. unfold connected. same_world.
Qed.

(** Every way of failing the validation block. *)
Lemma init_milvus_schema_invalid srv c :
  milvus_net w !! (host, port) = Some srv ->
  srv !! coll = Some c ->
  ¬ milvus_valid settings c ->
  exists m,
    init_milvus_schema settings w =
      (Raise (mkExn MilvusException m),
       connected settings
         (emits [EvMilvusConnect host port; EvHasCollection coll;
                 EvLog "[Milvus] Collection '%s' already exists" [coll];
                 EvCollectionOpen coll] w)) /\
    (m = MsgCourseIdNotPartitionKey \/ m = MsgMissingVectorField \/
     exists found, m = MsgVectorDimMismatch (VECTOR_DIM settings) found /\
                   found ≠ Some (VECTOR_DIM settings)).
Proof.
  intros Hnet Hc Hbad.
  rewrite (init_milvus_schema_existing srv c) by done.
  unfold validate_milvus_fields, course_id_not_partition_key.
  destruct (fields_by_name (fields (coll_schema c)) !! "course_id")
    as [f|] eqn:Hf; [| eauto].
  destruct (is_partition_key f) eqn:Hpk; simpl; [| eauto].
  destruct (fields_by_name (fields (coll_schema c)) !! "vector")
    as [v|] eqn:Hv; [| eauto 6].
  destruct (decide (dim v = Some (VECTOR_DIM settings))) as [Hd|Hd].
  - exfalso. apply Hbad. split; simpl; eauto.
  - rewrite bool_decide_false by done. simpl. eauto 8.
Qed.

(** There is no collection of that name: it is created and indexed. *)
Lemma init_milvus_schema_absent srv :
  milvus_net w !! (host, port) = Some srv ->
  srv !! coll = None ->
  init_milvus_schema settings w =
    (Ok tt,
     set_milvus_net
       (<[(host, port) := <[coll := created_collection settings]> srv]>
          (milvus_net w))
       (connected settings
          (emits [EvMilvusConnect host port; EvHasCollection coll;
                  EvLog "[Milvus] Creating collection '%s'" [coll];
                  EvCollectionCreate coll;
                  EvCollectionCreateIndex coll "vector";
                  EvLog "[Milvus] Collection created and indexed" []] w))).
Proof.
  intros Hnet Hc.
  unfold init_milvus_schema, connections_connect, has_collection,
    Collection_new, create_index.
  run_py.
  repeat (first [rewrite Hnet | rewrite Hc | rewrite lookup_insert_eq]; simpl).
  rewrite !insert_insert_eq.
  f_equal. unfold connected, created_collection. same_world.
Qed.

End MilvusRuns.

(* ===================================================================== *)
(** ** Runs of [main]                                                      *)
(* ===================================================================== *)

Lemma main_unfold settings w :
  main settings w =
    match init_redis_schema settings (emit EvAddMiddleware w) with
    | (Ok _, w1) =>
        match init_milvus_schema settings w1 with
        | (Ok _, w2) => (Ok tt, emit (EvUvicornRun 8000) w2)
        | (Raise e, w2) => (Raise e, w2)
        end
    | (Raise e, w1) => (Raise e, w1)
    end.
Proof.
  unfold main, bind, add_middleware, uvicorn_run, tell.
  destruct (init_redis_schema settings (emit EvAddMiddleware w)) as [[[]|e] w1];
    [|done].
  by destruct (init_milvus_schema settings w1) as [[[]|e] w2].
Qed.

Lemma not_serving_extends w w' :
  extends not_listener w w' -> ¬ serving w -> ¬ serving w'.
Proof.
  intros (es & Htr & Hall) Hno [p Hp]. rewrite Htr in Hp.
  apply elem_of_app in Hp as [Hp | Hp].
  - apply Hno. by exists p.
  - rewrite forallb_forall in Hall.
    apply list_elem_of_In, Hall in Hp. discriminate.
Qed.

Lemma not_serving_emit e w :
  not_listener e = true -> ¬ serving w -> ¬ serving (emit e w).
Proof. intros He. apply not_serving_extends. by apply extends_emit. Qed.

Lemma serving_emit_listener p w : serving (emit (EvUvicornRun p) w).
Proof. exists p. simpl. apply elem_of_app. right. by apply list_elem_of_singleton. Qed.

Lemma init_redis_schema_not_serving settings w :
  ¬ serving w -> ¬ serving (init_redis_schema settings w).2.
Proof.
  apply not_serving_extends. by destruct (init_redis_schema_redis_step settings w) as (_ & _ & ?).
Qed.

Lemma init_milvus_schema_not_serving settings w :
  ¬ serving w -> ¬ serving (init_milvus_schema settings w).2.
Proof.
  apply not_serving_extends. by destruct (init_milvus_schema_milvus_step settings w).
Qed.

Lemma read_only_emits es w :
  forallb (fun e => negb (is_write e)) es = true -> read_only_step w (emits es w).
Proof. intros H. repeat split. by exists es. Qed.

Lemma read_only_connected_emits settings es w :
  forallb (fun e => negb (is_write e)) es = true ->
  read_only_step w (connected settings (emits es w)).
Proof. intros H. repeat split. by exists es. Qed.

(** *** Case analysis on the state of the configured servers *)

Lemma milvus_valid_dec settings c :
  milvus_valid settings c \/ ¬ milvus_valid settings c.
Proof.
  unfold milvus_valid. simpl.
  destruct (fields_by_name (fields (coll_schema c)) !! "course_id")
    as [f|] eqn:Hf; [| right; by intros [(? & [=] & _) _]].
  destruct (is_partition_key f) eqn:Hpk;
    [| right; intros [(? & [= <-] & ?) _]; congruence].
  destruct (fields_by_name (fields (coll_schema c)) !! "vector")
    as [v|] eqn:Hv; [| right; by intros [_ (? & [=] & _)]].
  destruct (decide (dim v = Some (VECTOR_DIM settings))) as [Hd|Hd].
  - left. split; eauto.
  - right. intros [_ (? & [= <-] & ?)]. done.
Qed.

(** Splits on the state of the configured Redis server and rewrites the
    run of [init_redis_schema settings w] accordingly. *)
Ltac redis_cases settings w srv ix Hnet Hix Hv :=
  destruct (redis_net w !! (REDIS_HOST settings, REDIS_PORT settings))
    as [srv|] eqn:Hnet;
  [ destruct (srv !! REDIS_INDEX_NAME settings) as [ix|] eqn:Hix;
    [ assert (Hv : ix_schema ix = [] \/ ix_schema ix ≠ [])
        by (destruct (ix_schema ix); [by left | by right]);
      destruct Hv as [Hv|Hv];
      [ rewrite (init_redis_schema_existing_empty settings w srv ix
                   Hnet Hix Hv) in *
      | rewrite (init_redis_schema_existing settings w srv ix
                   Hnet Hix Hv) in * ]
    | rewrite (init_redis_schema_absent settings w srv Hnet Hix) in * ]
  | rewrite (init_redis_schema_unreachable settings w Hnet) in * ].

(** The same for the configured Milvus server and [init_milvus_schema]. *)
Ltac milvus_cases settings w srv c Hnet Hc Hv :=
  destruct (milvus_net w !! (MILVUS_HOST settings, MILVUS_PORT settings))
    as [srv|] eqn:Hnet;
  [ destruct (srv !! MILVUS_COLLECTION_NAME settings) as [c|] eqn:Hc;
    [ destruct (milvus_valid_dec settings c) as [Hv|Hv];
      [ rewrite (init_milvus_schema_valid settings w srv c Hnet Hc Hv) in *
      | let m := fresh "m" in
        let Hrun := fresh "Hrun" in
        destruct (init_milvus_schema_invalid settings w srv c Hnet Hc Hv)
          as (m & Hrun & _);
        rewrite Hrun in * ]
    | rewrite (init_milvus_schema_absent settings w srv Hnet Hc) in * ]
  | rewrite (init_milvus_schema_unreachable settings w Hnet) in * ].

(* ===================================================================== *)
(** ** Theorems                                                            *)
(* ===================================================================== *)

(** C1.  The claim is that an existing Redis index lacking a required
    attribute makes [init_redis_schema] fail at once with the
    schema-mismatch error, with no further store operation.  The code
    fails at once, but not with that error: the attribute names are read
    with [attr["attribute"]] off entries that this client delivers as
    lists, so for every existing index with at least one field, whatever
    its attributes, the run ends in a [TypeError] right after FT.INFO and
    the log line; the comparison with [required_fields] is never reached.
    No FT.CREATE follows and the store is unchanged. *)
Theorem init_redis_schema_existing_index_type_error settings w srv ix :
  redis_net w !! (REDIS_HOST settings, REDIS_PORT settings) = Some srv ->
  srv !! REDIS_INDEX_NAME settings = Some ix ->
  ix_schema ix ≠ [] ->
  exists e w',
    init_redis_schema settings w = (Raise e, w') /\
    exn_class e = TypeError /\
    exn_msg e = MsgListIndices /\
    is_schema_mismatch (exn_msg e) = false /\
    redis_net w' = redis_net w /\
    trace w' =
      trace w ++
        [EvRedisPing (REDIS_HOST settings) (REDIS_PORT settings);
         EvFtInfo (REDIS_INDEX_NAME settings);
         EvLog "[Redis] Index '%s' already exists" [REDIS_INDEX_NAME settings]].
Proof.
  intros Hnet Hix Hsch.
  eexists _, _. split; [by eapply init_redis_schema_existing|]. done.
Qed.

Lemma init_redis_schema_existing_index_type_error_witness :
  ¬ (required_fields ⊆ index_attributes index_without_counters) /\
  exists e w',
    init_redis_schema settings0 world_redis_mismatch = (Raise e, w') /\
    exn_class e = TypeError /\
    exn_msg e = MsgListIndices /\
    is_schema_mismatch (exn_msg e) = false /\
    redis_net w' = redis_net world_redis_mismatch /\
    trace w' =
      [EvRedisPing "redis" 6379; EvFtInfo "cache_idx";
       EvLog "[Redis] Index '%s' already exists" ["cache_idx"]].
Proof.
  split.
  - apply (bool_decide_eq_false_1 _). vm_compute. reflexivity.
  - apply (init_redis_schema_existing_index_type_error settings0
             world_redis_mismatch {[ "cache_idx" := index_without_counters ]}
             index_without_counters).
    + reflexivity.
    + reflexivity.
    + simpl. discriminate.
Defined.

(** C2.  When the configured Milvus server holds the collection and the
    collection's [vector] field has a dimension other than [VECTOR_DIM],
    [init_milvus_schema] raises a [MilvusException] reporting a schema
    mismatch (the dimension mismatch itself once [course_id] is a partition
    key, which is checked first) without writing to either store; and
    [main], which calls it before [uvicorn.run], ends in an exception with
    the listener never started. *)
Theorem milvus_dim_mismatch_is_fatal settings w srv c v :
  milvus_net w !! (MILVUS_HOST settings, MILVUS_PORT settings) = Some srv ->
  srv !! MILVUS_COLLECTION_NAME settings = Some c ->
  fields_by_name (fields (coll_schema c)) !! "vector" = Some v ->
  dim v ≠ Some (VECTOR_DIM settings) ->
  (exists m w',
     init_milvus_schema settings w = (Raise (mkExn MilvusException m), w') /\
     is_schema_mismatch m = true /\
     (course_id_not_partition_key (fields_by_name (fields (coll_schema c)))
        = false ->
      m = MsgVectorDimMismatch (VECTOR_DIM settings) (dim v)) /\
     read_only_step w w') /\
  (¬ serving w ->
   exists e w', main settings w = (Raise e, w') /\ ¬ serving w').
Proof.
  intros Hnet Hc Hv Hdim.
  assert (Hbad : ¬ milvus_valid settings c).
  { intros [_ (v' & Hv' & Hd')]. simpl in Hv'. congruence. }
  split.
  - destruct (init_milvus_schema_invalid settings w srv c Hnet Hc Hbad)
      as (m & Hrun & Hm).
    eexists m, _. split; [exact Hrun|]. split; [|split].
    + destruct Hm as [-> | [-> | (found & -> & _)]]; done.
    + intros Hpk.
      rewrite (init_milvus_schema_existing settings w srv c Hnet Hc) in Hrun.
      unfold validate_milvus_fields in Hrun. rewrite Hpk, Hv in Hrun.
      rewrite bool_decide_false in Hrun by done. simpl in Hrun.
      unfold raise in Hrun. congruence.
    + by apply read_only_connected_emits.
  - intros Hno. rewrite main_unfold.
    pose proof (init_redis_schema_redis_step settings (emit EvAddMiddleware w))
      as (Hm & _ & _).
    pose proof (init_redis_schema_not_serving settings (emit EvAddMiddleware w)
                  (not_serving_emit EvAddMiddleware w eq_refl Hno)) as Hno1.
    destruct (init_redis_schema settings (emit EvAddMiddleware w))
      as [[[]|e] w1]; simpl in *; [| eauto].
    assert (Hnet1 : milvus_net w1 !! (MILVUS_HOST settings, MILVUS_PORT settings)
                    = Some srv) by (by rewrite Hm).
    destruct (init_milvus_schema_invalid settings w1 srv c Hnet1 Hc Hbad)
      as (m & Hrun & _).
    pose proof (init_milvus_schema_not_serving settings w1 Hno1) as Hno2.
    rewrite Hrun in Hno2 |- *. eauto.
Qed.

Lemma milvus_dim_mismatch_is_fatal_witness :
  (exists m w',
     init_milvus_schema settings0 world_milvus_dim_768 =
       (Raise (mkExn MilvusException m), w') /\
     is_schema_mismatch m = true /\
     (course_id_not_partition_key
        (fields_by_name (fields (coll_schema collection_dim_768))) = false ->
      m = MsgVectorDimMismatch 384 (Some 768)) /\
     read_only_step world_milvus_dim_768 w') /\
  (¬ serving world_milvus_dim_768 ->
   exists e w', main settings0 world_milvus_dim_768 = (Raise e, w') /\
                ¬ serving w').
Proof.
  apply (milvus_dim_mismatch_is_fatal settings0 world_milvus_dim_768
           {[ "kb" := collection_dim_768 ]} collection_dim_768
           {| name := "vector"; dtype := FLOAT_VECTOR; is_primary := false;
              auto_id := false; is_partition_key := false;
              dim := Some 768; max_length := None; fdescription := "" |}).
  - reflexivity.
  - reflexivity.
  - reflexivity.
  - simpl. discriminate.
Defined.

(** C4.  Started from a world in which the listener is not running, [main]
    starts it ([uvicorn.run]) exactly when [init_redis_schema] and then
    [init_milvus_schema] both return normally, and then as the last thing
    it does; an exception from either initialiser is the outcome of [main],
    and the listener is not started. *)
Theorem main_serves_only_after_both_inits settings w :
  ¬ serving w ->
  (serving (main settings w).2 <->
   exists w1 w2,
     init_redis_schema settings (emit EvAddMiddleware w) = (Ok tt, w1) /\
     init_milvus_schema settings w1 = (Ok tt, w2) /\
     main settings w = (Ok tt, emit (EvUvicornRun 8000) w2) /\
     ¬ serving w2) /\
  (forall e w1,
     init_redis_schema settings (emit EvAddMiddleware w) = (Raise e, w1) ->
     main settings w = (Raise e, w1) /\ ¬ serving w1) /\
  (forall w1 e w2,
     init_redis_schema settings (emit EvAddMiddleware w) = (Ok tt, w1) ->
     init_milvus_schema settings w1 = (Raise e, w2) ->
     main settings w = (Raise e, w2) /\ ¬ serving w2).
Proof.
  intros Hno.
  pose proof (init_redis_schema_not_serving settings (emit EvAddMiddleware w)
                (not_serving_emit EvAddMiddleware w eq_refl Hno)) as Hno1.
  rewrite main_unfold.
  destruct (init_redis_schema settings (emit EvAddMiddleware w))
    as [[[]|e1] w1]; simpl in Hno1.
  - pose proof (init_milvus_schema_not_serving settings w1 Hno1) as Hno2.
    destruct (init_milvus_schema settings w1) as [[[]|e2] w2] eqn:Hm;
      simpl in Hno2.
    + split; [|split].
      * split; [intros _; exists w1, w2; by rewrite Hm|].
        intros _. apply serving_emit_listener.
      * intros ? ? [=].
      * intros ? ? ? [= <-]. rewrite Hm. intros [=].
    + split; [|split].
      * split; [done|]. intros (? & ? & [= <-] & Hm' & _). congruence.
      * intros ? ? [=].
      * intros ? ? ? [= <-]. rewrite Hm. by intros [= <- <-].
  - split; [|split].
    + split; [done|]. by intros (? & ? & [=] & _).
    + by intros ? ? [= <- <-].
    + intros ? ? ? [=].
Qed.

Lemma main_serves_only_after_both_inits_witness :
  ¬ serving fresh_world /\
  (serving (main settings0 fresh_world).2 <->
   exists w1 w2,
     init_redis_schema settings0 (emit EvAddMiddleware fresh_world) = (Ok tt, w1) /\
     init_milvus_schema settings0 w1 = (Ok tt, w2) /\
     main settings0 fresh_world = (Ok tt, emit (EvUvicornRun 8000) w2) /\
     ¬ serving w2).
Proof.
  split.
  - intros [p Hp]. simpl in Hp. inversion Hp.
  - apply (main_serves_only_after_both_inits settings0 fresh_world).
    intros [p Hp]. simpl in Hp. inversion Hp.
Defined.

(** C5.  When the configured Redis server is reachable and has no index of
    the configured name, [init_redis_schema] returns normally and the
    server then holds that index with the fields [course_id] (tag),
    [vector] (HNSW, FLOAT32, dimension [VECTOR_DIM], cosine distance),
    [access_count] and [last_accessed] (numeric), defined over hashes whose
    keys start with "cache:"; the other indexes of the server are as they
    were. *)
Theorem init_redis_schema_creates_index settings w srv :
  redis_net w !! (REDIS_HOST settings, REDIS_PORT settings) = Some srv ->
  srv !! REDIS_INDEX_NAME settings = None ->
  exists w' srv' ix,
    init_redis_schema settings w = (Ok tt, w') /\
    redis_net w' !! (REDIS_HOST settings, REDIS_PORT settings) = Some srv' /\
    srv' !! REDIS_INDEX_NAME settings = Some ix /\
    (forall other, other ≠ REDIS_INDEX_NAME settings ->
                   srv' !! other = srv !! other) /\
    ix_schema ix =
      [ TagField "course_id";
        VectorField "vector" "HNSW"
          [ ("TYPE", AStr "FLOAT32");
            ("DIM", AInt (VECTOR_DIM settings));
            ("DISTANCE_METRIC", AStr "COSINE");
            ("M", AInt 16);
            ("EF_CONSTRUCTION", AInt 200) ];
        NumericField "access_count";
        NumericField "last_accessed" ] /\
    index_attributes ix = required_fields /\
    prefix (ix_definition ix) = ["cache:"] /\
    index_type (ix_definition ix) = HASH.
Proof.
  intros Hnet Hix.
  eexists _, _, _. split; [by eapply init_redis_schema_absent|].
  split; [apply lookup_insert_eq|].
  split; [apply lookup_insert_eq|].
  split; [intros other Hne; by rewrite lookup_insert_ne|].
  repeat split.
Qed.

Lemma init_redis_schema_creates_index_witness :
  exists w' srv' ix,
    init_redis_schema settings0 fresh_world = (Ok tt, w') /\
    redis_net w' !! ("redis", 6379) = Some srv' /\
    srv' !! "cache_idx" = Some ix /\
    (forall other, other ≠ "cache_idx" ->
                   srv' !! other = (∅ : gmap string RedisIndex) !! other) /\
    ix_schema ix =
      [ TagField "course_id";
        VectorField "vector" "HNSW"
          [ ("TYPE", AStr "FLOAT32");
            ("DIM", AInt 384);
            ("DISTANCE_METRIC", AStr "COSINE");
            ("M", AInt 16);
            ("EF_CONSTRUCTION", AInt 200) ];
        NumericField "access_count";
        NumericField "last_accessed" ] /\
    index_attributes ix = required_fields /\
    prefix (ix_definition ix) = ["cache:"] /\
    index_type (ix_definition ix) = HASH.
Proof.
  apply (init_redis_schema_creates_index settings0 fresh_world ∅).
  - reflexivity.
  - reflexivity.
Defined.

(** C6.  When the configured Milvus server is reachable and has no
    collection of the configured name, [init_milvus_schema] returns
    normally and the server then holds that collection with [course_id] as
    partition key, a FLOAT_VECTOR field [vector] of dimension [VECTOR_DIM],
    consistency level "Strong", and one index, over [vector], of type HNSW
    with the COSINE metric. *)
Theorem init_milvus_schema_creates_collection settings w srv :
  milvus_net w !! (MILVUS_HOST settings, MILVUS_PORT settings) = Some srv ->
  srv !! MILVUS_COLLECTION_NAME settings = None ->
  exists w' srv' c fc fv,
    init_milvus_schema settings w = (Ok tt, w') /\
    milvus_net w' !! (MILVUS_HOST settings, MILVUS_PORT settings) = Some srv' /\
    srv' !! MILVUS_COLLECTION_NAME settings = Some c /\
    (forall other, other ≠ MILVUS_COLLECTION_NAME settings ->
                   srv' !! other = srv !! other) /\
    map name (fields (coll_schema c)) =
      ["id"; "course_id"; "vector"; "doc_ref_id"; "chunk_index"; "created_at"] /\
    fields_by_name (fields (coll_schema c)) !! "course_id" = Some fc /\
    is_partition_key fc = true /\
    fields_by_name (fields (coll_schema c)) !! "vector" = Some fv /\
    dtype fv = FLOAT_VECTOR /\
    dim fv = Some (VECTOR_DIM settings) /\
    consistency_level c = "Strong" /\
    coll_indexes c =
      [("vector", {| metric_type := "COSINE"; index_kind := "HNSW";
                     params := [("M", 16); ("efConstruction", 200)] |})].
Proof.
  intros Hnet Hc.
  eexists _, _, _, _, _. split; [by eapply init_milvus_schema_absent|].
  split; [apply lookup_insert_eq|].
  split; [apply lookup_insert_eq|].
  split; [intros other Hne; by rewrite lookup_insert_ne|].
  split; [reflexivity|].
  split; [reflexivity|].
  split; [reflexivity|].
  split; [reflexivity|].
  repeat split.
Qed.

Lemma init_milvus_schema_creates_collection_witness :
  exists w' srv' c fc fv,
    init_milvus_schema settings0 fresh_world = (Ok tt, w') /\
    milvus_net w' !! ("milvus", 19530) = Some srv' /\
    srv' !! "kb" = Some c /\
    (forall other, other ≠ "kb" ->
                   srv' !! other = (∅ : gmap string MilvusCollection) !! other) /\
    map name (fields (coll_schema c)) =
      ["id"; "course_id"; "vector"; "doc_ref_id"; "chunk_index"; "created_at"] /\
    fields_by_name (fields (coll_schema c)) !! "course_id" = Some fc /\
    is_partition_key fc = true /\
    fields_by_name (fields (coll_schema c)) !! "vector" = Some fv /\
    dtype fv = FLOAT_VECTOR /\
    dim fv = Some 384 /\
    consistency_level c = "Strong" /\
    coll_indexes c =
      [("vector", {| metric_type := "COSINE"; index_kind := "HNSW";
                     params := [("M", 16); ("efConstruction", 200)] |})].
Proof.
  apply (init_milvus_schema_creates_collection settings0 fresh_world ∅).
  - reflexivity.
  - reflexivity.
Defined.

(** *** Successful runs, read backwards *)

Lemma created_collection_valid settings :
  milvus_valid settings (created_collection settings).
Proof. split; eexists; (split; [reflexivity | done]). Qed.

(** A normal return over an existing collection means it is valid. *)
Lemma init_milvus_schema_ok_valid settings w srv c w' :
  milvus_net w !! (MILVUS_HOST settings, MILVUS_PORT settings) = Some srv ->
  srv !! MILVUS_COLLECTION_NAME settings = Some c ->
  init_milvus_schema settings w = (Ok tt, w') ->
  milvus_valid settings c.
Proof.
  intros Hnet Hc Hrun.
  rewrite (init_milvus_schema_existing settings w srv c Hnet Hc) in Hrun.
  unfold validate_milvus_fields, course_id_not_partition_key in Hrun.
  destruct (fields_by_name (fields (coll_schema c)) !! "course_id")
    as [f|] eqn:Hf; [| discriminate].
  destruct (is_partition_key f) eqn:Hpk; simpl in Hrun; [| discriminate].
  destruct (fields_by_name (fields (coll_schema c)) !! "vector")
    as [v|] eqn:Hv; [| discriminate].
  destruct (decide (dim v = Some (VECTOR_DIM settings))) as [Hd|Hd].
  - split; simpl; eauto.
  - rewrite bool_decide_false in Hrun by done. discriminate.
Qed.

(** A normal return of [init_redis_schema] is a creation: the name was
    free, and the index of the creation branch is there afterwards. *)
Lemma init_redis_schema_ok_created settings w w' :
  init_redis_schema settings w = (Ok tt, w') ->
  redis_free settings w /\ redis_created settings w'.
Proof.
  intros Hrun. unfold redis_free, redis_created, redis_index_at.
  redis_cases settings w srv ix Hnet Hix Hv; try discriminate.
  injection Hrun as <-. split; [eauto|]. simpl.
  rewrite lookup_insert_eq. simpl. by rewrite lookup_insert_eq.
Qed.

(** Over the index of the creation branch the run ends in [TypeError]. *)
Lemma init_redis_schema_created settings w :
  redis_created settings w ->
  init_redis_schema settings w =
    (Raise (mkExn TypeError MsgListIndices),
     emits [EvRedisPing (REDIS_HOST settings) (REDIS_PORT settings);
            EvFtInfo (REDIS_INDEX_NAME settings);
            EvLog "[Redis] Index '%s' already exists"
                  [REDIS_INDEX_NAME settings]] w).
Proof.
  unfold redis_created, redis_index_at. intros Hat.
  destruct (redis_net w !! (REDIS_HOST settings, REDIS_PORT settings))
    as [srv|] eqn:Hnet; [|done].
  simpl in Hat.
  by apply (init_redis_schema_existing settings w srv (created_index settings)).
Qed.

Lemma init_milvus_schema_twice settings w w1 :
  init_milvus_schema settings w = (Ok tt, w1) ->
  exists w2, init_milvus_schema settings w1 = (Ok tt, w2) /\ read_only_step w1 w2.
Proof.
  intros Hrun.
  destruct (milvus_net w !! (MILVUS_HOST settings, MILVUS_PORT settings))
    as [srv|] eqn:Hnet.
  - destruct (srv !! MILVUS_COLLECTION_NAME settings) as [c|] eqn:Hc.
    + pose proof (init_milvus_schema_ok_valid _ _ _ _ _ Hnet Hc Hrun) as Hok.
      rewrite (init_milvus_schema_valid settings w srv c) in Hrun by done.
      injection Hrun as <-.
      eexists. split.
      * by apply (init_milvus_schema_valid settings _ srv c).
      * by apply read_only_connected_emits.
    + rewrite (init_milvus_schema_absent settings w srv) in Hrun by done.
      injection Hrun as <-.
      eexists. split.
      * eapply init_milvus_schema_valid.
        -- simpl. apply lookup_insert_eq.
        -- apply lookup_insert_eq.
        -- apply created_collection_valid.
      * by apply read_only_connected_emits.
  - rewrite init_milvus_schema_unreachable in Hrun by done. discriminate.
Qed.

(** C9.  The claim is that a second run on a valid store takes the
    already-exists branch, validates again and returns, writing nothing.
    For Milvus it does: over a collection that passes validation
    [init_milvus_schema] connects, asks whether the collection exists,
    opens it, logs and returns, and a run that follows a normal return is
    such a run.  For Redis it does not: every normal return of
    [init_redis_schema] is a creation, and the run that follows finds the
    index, reads [attr["attribute"]] off a list and ends in [TypeError]
    after FT.INFO.  That second run writes nothing either, but it does not
    return. *)
Theorem schema_init_second_run settings w :
  (forall w1,
     init_redis_schema settings w = (Ok tt, w1) ->
     exists w2,
       init_redis_schema settings w1 =
         (Raise (mkExn TypeError MsgListIndices), w2) /\
       read_only_step w1 w2 /\
       trace w2 =
         trace w1 ++
           [EvRedisPing (REDIS_HOST settings) (REDIS_PORT settings);
            EvFtInfo (REDIS_INDEX_NAME settings);
            EvLog "[Redis] Index '%s' already exists"
                  [REDIS_INDEX_NAME settings]]) /\
  (forall srv c,
     milvus_net w !! (MILVUS_HOST settings, MILVUS_PORT settings) = Some srv ->
     srv !! MILVUS_COLLECTION_NAME settings = Some c ->
     milvus_valid settings c ->
     exists w',
       init_milvus_schema settings w = (Ok tt, w') /\
       read_only_step w w' /\
       trace w' =
         trace w ++
           [EvMilvusConnect (MILVUS_HOST settings) (MILVUS_PORT settings);
            EvHasCollection (MILVUS_COLLECTION_NAME settings);
            EvLog "[Milvus] Collection '%s' already exists"
                  [MILVUS_COLLECTION_NAME settings];
            EvCollectionOpen (MILVUS_COLLECTION_NAME settings);
            EvLog "[Milvus] Schema validation OK" []]) /\
  (forall w1,
     init_milvus_schema settings w = (Ok tt, w1) ->
     exists w2,
       init_milvus_schema settings w1 = (Ok tt, w2) /\ read_only_step w1 w2).
Proof.
  split; [|split].
  - intros w1 Hrun.
    destruct (init_redis_schema_ok_created settings w w1 Hrun) as [_ Hcr].
    eexists. split; [by apply init_redis_schema_created|].
    split; [by apply read_only_emits | done].
  - intros srv c Hnet Hc Hok. eexists. split.
    + by apply (init_milvus_schema_valid settings w srv c).
    + split; [by apply read_only_connected_emits | done].
  - apply init_milvus_schema_twice.
Qed.

Lemma schema_init_second_run_witness :
  (exists w2,
     init_redis_schema settings0 (init_redis_schema settings0 fresh_world).2
       = (Raise (mkExn TypeError MsgListIndices), w2) /\
     read_only_step (init_redis_schema settings0 fresh_world).2 w2) /\
  (exists w2,
     init_milvus_schema settings0 (init_milvus_schema settings0 fresh_world).2
       = (Ok tt, w2) /\
     read_only_step (init_milvus_schema settings0 fresh_world).2 w2).
Proof.
  destruct (schema_init_second_run settings0 fresh_world) as (Hr & _ & Hm).
  split.
  - destruct (Hr (init_redis_schema settings0 fresh_world).2)
      as (w2 & H1 & H2 & _); [vm_compute; reflexivity|].
    exists w2. split; [exact H1 | exact H2].
  - apply Hm. vm_compute. reflexivity.
Defined.

(** *** Stores that hold only part of the data model *)

(** The outcome of the validation block is a function of the two entries
    it looks up. *)
Lemma validate_milvus_fields_two_entries settings fs fs' w w' :
  fs !! "course_id" = fs' !! "course_id" ->
  fs !! "vector" = fs' !! "vector" ->
  (validate_milvus_fields settings fs w).1 =
  (validate_milvus_fields settings fs' w').1.
Proof.
  intros Hc Hv. unfold validate_milvus_fields, course_id_not_partition_key.
  rewrite Hc, Hv.
  destruct (fs' !! "course_id") as [f|]; [|done].
  destruct (is_partition_key f); simpl; [|done].
  destruct (fs' !! "vector") as [v|]; [|done].
  by destruct (negb (bool_decide (dim v = Some (VECTOR_DIM settings)))).
Qed.

(** C3, as stated, fails: a knowledge collection that has [id],
    [course_id] as partition key and [vector] of the configured dimension,
    and none of [doc_ref_id], [chunk_index], [created_at], is accepted. *)
Lemma validation_accepts_partial_field_sets :
  map name (fields (coll_schema collection_three_fields))
    = ["id"; "course_id"; "vector"] /\
  (init_milvus_schema settings0 world_milvus_three_fields).1 = Ok tt.
Proof.
  split.
  - reflexivity.
  - vm_compute. reflexivity.
Qed.

(** C3, amended.  Validation does not cover the full field sets.  An
    existing knowledge collection is accepted exactly when [course_id] is
    there as a partition key and [vector] is there with dimension
    [VECTOR_DIM], and is otherwise refused with a [MilvusException]; the
    outcome is the same for any two collections that agree on these two
    fields, whatever else they hold.  The attributes asked of an existing
    cache index are [course_id], [vector], [access_count] and
    [last_accessed]; [answer] is not among them. *)
Theorem schema_validation_covers_checked_fields settings w :
  (forall n, n ∈ required_fields <->
             n ∈ ["course_id"; "vector"; "access_count"; "last_accessed"]) /\
  ("answer" ∉ required_fields) /\
  (forall srv c,
     milvus_net w !! (MILVUS_HOST settings, MILVUS_PORT settings) = Some srv ->
     srv !! MILVUS_COLLECTION_NAME settings = Some c ->
     ((init_milvus_schema settings w).1 = Ok tt <-> milvus_valid settings c) /\
     (¬ milvus_valid settings c ->
      exists m, (init_milvus_schema settings w).1 =
                  Raise (mkExn MilvusException m) /\
                is_schema_mismatch m = true)) /\
  (forall srv c w' srv' c',
     milvus_net w !! (MILVUS_HOST settings, MILVUS_PORT settings) = Some srv ->
     srv !! MILVUS_COLLECTION_NAME settings = Some c ->
     milvus_net w' !! (MILVUS_HOST settings, MILVUS_PORT settings) = Some srv' ->
     srv' !! MILVUS_COLLECTION_NAME settings = Some c' ->
     fields_by_name (fields (coll_schema c)) !! "course_id" =
       fields_by_name (fields (coll_schema c')) !! "course_id" ->
     fields_by_name (fields (coll_schema c)) !! "vector" =
       fields_by_name (fields (coll_schema c')) !! "vector" ->
     (init_milvus_schema settings w).1 = (init_milvus_schema settings w').1).
Proof.
  split; [|split; [|split]].
  - intros n. unfold required_fields.
    rewrite !elem_of_union, !elem_of_singleton, !elem_of_cons.
    split; [tauto|]. intros [?|[?|[?|[?|Hn]]]]; try tauto.
    by apply not_elem_of_nil in Hn.
  - apply (bool_decide_eq_false_1 _). vm_compute. reflexivity.
  - intros srv c Hnet Hc. split; [split|].
    + destruct (init_milvus_schema settings w) as [r w1] eqn:Hrun. simpl.
      intros ->. by eapply init_milvus_schema_ok_valid.
    + intros Hok. by rewrite (init_milvus_schema_valid settings w srv c).
    + intros Hbad.
      destruct (init_milvus_schema_invalid settings w srv c Hnet Hc Hbad)
        as (m & Hrun & Hm).
      exists m. rewrite Hrun. split; [done|].
      destruct Hm as [-> | [-> | (found & -> & _)]]; done.
  - intros srv c w' srv' c' Hnet Hc Hnet' Hc' Hcid Hvec.
    rewrite (init_milvus_schema_existing settings w srv c Hnet Hc).
    rewrite (init_milvus_schema_existing settings w' srv' c' Hnet' Hc').
    by apply validate_milvus_fields_two_entries.
Qed.

Lemma schema_validation_covers_checked_fields_witness :
  (init_milvus_schema settings0 world_milvus_three_fields).1 = Ok tt <->
  milvus_valid settings0 collection_three_fields.
Proof.
  destruct (schema_validation_covers_checked_fields settings0
              world_milvus_three_fields) as (_ & _ & Hm & _).
  apply (Hm {[ "kb" := collection_three_fields ]} collection_three_fields).
  - reflexivity.
  - reflexivity.
Defined.

(** *** The graph-construction parameters found in the stores *)

(** C8, as stated, fails: two configurations that differ in every value
    give indexes with the same [M] and [efConstruction], in both stores. *)
Lemma hnsw_parameters_same_under_different_settings :
  REDIS_HOST settings0 ≠ REDIS_HOST settings1 /\
  REDIS_PORT settings0 ≠ REDIS_PORT settings1 /\
  REDIS_INDEX_NAME settings0 ≠ REDIS_INDEX_NAME settings1 /\
  MILVUS_HOST settings0 ≠ MILVUS_HOST settings1 /\
  MILVUS_PORT settings0 ≠ MILVUS_PORT settings1 /\
  MILVUS_COLLECTION_NAME settings0 ≠ MILVUS_COLLECTION_NAME settings1 /\
  VECTOR_DIM settings0 ≠ VECTOR_DIM settings1 /\
  stored_redis_hnsw settings0 (init_redis_schema settings0 fresh_world).2 =
    stored_redis_hnsw settings1 (init_redis_schema settings1 fresh_world1).2 /\
  stored_milvus_hnsw settings0 (init_milvus_schema settings0 fresh_world).2 =
    stored_milvus_hnsw settings1 (init_milvus_schema settings1 fresh_world1).2 /\
  stored_redis_hnsw settings0 (init_redis_schema settings0 fresh_world).2 =
    Some (AInt 16, AInt 200) /\
  stored_milvus_hnsw settings0 (init_milvus_schema settings0 fresh_world).2 =
    Some (16, 200).
Proof.
  repeat split; try discriminate; vm_compute; reflexivity.
Qed.

(** C8, amended.  The graph-construction parameters are fixed constants:
    whatever the configuration, the cache index that [init_redis_schema]
    creates has [M] = 16 and [EF_CONSTRUCTION] = 200, and the index that
    [init_milvus_schema] builds over [vector] has [M] = 16 and
    [efConstruction] = 200. *)
Theorem hnsw_parameters_are_constants settings w :
  (forall srv,
     redis_net w !! (REDIS_HOST settings, REDIS_PORT settings) = Some srv ->
     srv !! REDIS_INDEX_NAME settings = None ->
     stored_redis_hnsw settings (init_redis_schema settings w).2 =
       Some (AInt 16, AInt 200)) /\
  (forall srv,
     milvus_net w !! (MILVUS_HOST settings, MILVUS_PORT settings) = Some srv ->
     srv !! MILVUS_COLLECTION_NAME settings = None ->
     stored_milvus_hnsw settings (init_milvus_schema settings w).2 =
       Some (16, 200)).
Proof.
  split; intros srv Hnet Habs.
  - rewrite (init_redis_schema_absent settings w srv) by done.
    unfold stored_redis_hnsw. simpl.
    rewrite lookup_insert_eq. simpl. by rewrite lookup_insert_eq.
  - rewrite (init_milvus_schema_absent settings w srv) by done.
    unfold stored_milvus_hnsw. simpl.
    rewrite lookup_insert_eq. simpl. by rewrite lookup_insert_eq.
Qed.

Lemma hnsw_parameters_are_constants_witness :
  stored_redis_hnsw settings1 (init_redis_schema settings1 fresh_world1).2 =
    Some (AInt 16, AInt 200) /\
  stored_milvus_hnsw settings1 (init_milvus_schema settings1 fresh_world1).2 =
    Some (16, 200).
Proof.
  destruct (hnsw_parameters_are_constants settings1 fresh_world1) as [Hr Hm].
  split.
  - apply (Hr ∅); reflexivity.
  - apply (Hm ∅); reflexivity.
Defined.

(** *** The declared type of [course_id] in each store *)

(** C10.  The two stores declare [course_id] with different types: in the
    collection [init_milvus_schema] creates it is an INT64 field and the
    partition key; in the index [init_redis_schema] creates it is a tag
    field. *)
Theorem course_id_types_differ settings w :
  (forall srv,
     milvus_net w !! (MILVUS_HOST settings, MILVUS_PORT settings) = Some srv ->
     srv !! MILVUS_COLLECTION_NAME settings = None ->
     exists srv' c f,
       milvus_net (init_milvus_schema settings w).2
         !! (MILVUS_HOST settings, MILVUS_PORT settings) = Some srv' /\
       srv' !! MILVUS_COLLECTION_NAME settings = Some c /\
       fields_by_name (fields (coll_schema c)) !! "course_id" = Some f /\
       dtype f = INT64 /\ is_partition_key f = true) /\
  (forall srv,
     redis_net w !! (REDIS_HOST settings, REDIS_PORT settings) = Some srv ->
     srv !! REDIS_INDEX_NAME settings = None ->
     exists srv' ix,
       redis_net (init_redis_schema settings w).2
         !! (REDIS_HOST settings, REDIS_PORT settings) = Some srv' /\
       srv' !! REDIS_INDEX_NAME settings = Some ix /\
       redis_field "course_id" (ix_schema ix) = Some (TagField "course_id")).
Proof.
  split; intros srv Hnet Habs.
  - rewrite (init_milvus_schema_absent settings w srv) by done.
    eexists _, _, _. simpl.
    split; [apply lookup_insert_eq|].
    split; [apply lookup_insert_eq|].
    split; [reflexivity|]. done.
  - rewrite (init_redis_schema_absent settings w srv) by done.
    eexists _, _. simpl.
    split; [apply lookup_insert_eq|].
    split; [apply lookup_insert_eq|]. done.
Qed.

Lemma course_id_types_differ_witness :
  (exists srv' c f,
     milvus_net (init_milvus_schema settings0 fresh_world).2
       !! ("milvus", 19530) = Some srv' /\
     srv' !! "kb" = Some c /\
     fields_by_name (fields (coll_schema c)) !! "course_id" = Some f /\
     dtype f = INT64 /\ is_partition_key f = true) /\
  (exists srv' ix,
     redis_net (init_redis_schema settings0 fresh_world).2
       !! ("redis", 6379) = Some srv' /\
     srv' !! "cache_idx" = Some ix /\
     redis_field "course_id" (ix_schema ix) = Some (TagField "course_id")).
Proof.
  destruct (course_id_types_differ settings0 fresh_world) as [Hm Hr].
  split.
  - apply (Hm ∅); reflexivity.
  - apply (Hr ∅); reflexivity.
Defined.

(* ===================================================================== *)
(** ** Construction of the settings                                        *)
(* ===================================================================== *)





(* ===================================================================== *)
(** ** Further properties of the initialisers                              *)
(* ===================================================================== *)

(** X1.  When no Redis server answers at the configured address,
    [init_redis_schema] raises [RedisError] "Redis connection failed: ..."
    carrying the cause, after the ping and nothing else: no FT.INFO, no
    FT.CREATE, and the rest of the world is as it was. *)
Theorem init_redis_schema_connection_failure settings w :
  redis_net w !! (REDIS_HOST settings, REDIS_PORT settings) = None ->
  exists w',
    init_redis_schema settings w =
      (Raise (mkExn RedisError
                (MsgRedisConnectionFailed
                   (MsgConnectionRefused (REDIS_HOST settings)
                                         (REDIS_PORT settings)))), w') /\
    trace w' =
      trace w ++ [EvRedisPing (REDIS_HOST settings) (REDIS_PORT settings)] /\
    redis_net w' = redis_net w /\ milvus_net w' = milvus_net w /\
    milvus_conns w' = milvus_conns w.
Proof.
  intros Hnet. eexists. split; [by apply init_redis_schema_unreachable|]. done.
Qed.

Lemma init_redis_schema_connection_failure_witness :
  exists w',
    init_redis_schema settings0 world_offline =
      (Raise (mkExn RedisError
                (MsgRedisConnectionFailed
                   (MsgConnectionRefused "redis" 6379))), w') /\
    trace w' = [EvRedisPing "redis" 6379] /\
    redis_net w' = ∅ /\ milvus_net w' = ∅ /\ milvus_conns w' = ∅.
Proof.
  apply (init_redis_schema_connection_failure settings0 world_offline).
  reflexivity.
Defined.

(** X2.  When no Milvus server answers at the configured address,
    [init_milvus_schema] raises [MilvusException] "Milvus connection
    failed: ..." carrying the cause, after the connection attempt and
    nothing else; no alias is registered and both stores are as they
    were. *)
Theorem init_milvus_schema_connection_failure settings w :
  milvus_net w !! (MILVUS_HOST settings, MILVUS_PORT settings) = None ->
  exists w',
    init_milvus_schema settings w =
      (Raise (mkExn MilvusException
                (MsgMilvusConnectionFailed
                   (MsgConnectionRefused (MILVUS_HOST settings)
                                         (MILVUS_PORT settings)))), w') /\
    trace w' =
      trace w ++ [EvMilvusConnect (MILVUS_HOST settings) (MILVUS_PORT settings)] /\
    redis_net w' = redis_net w /\ milvus_net w' = milvus_net w /\
    milvus_conns w' = milvus_conns w.
Proof.
  intros Hnet. eexists. split; [by apply init_milvus_schema_unreachable|]. done.
Qed.

Lemma init_milvus_schema_connection_failure_witness :
  exists w',
    init_milvus_schema settings0 world_milvus_offline =
      (Raise (mkExn MilvusException
                (MsgMilvusConnectionFailed
                   (MsgConnectionRefused "milvus" 19530))), w') /\
    trace w' = [EvMilvusConnect "milvus" 19530] /\
    redis_net w' = redis_net world_milvus_offline /\
    milvus_net w' = ∅ /\ milvus_conns w' = ∅.
Proof.
  apply (init_milvus_schema_connection_failure settings0 world_milvus_offline).
  reflexivity.
Defined.

(** X3.  The validation block of [init_milvus_schema] reports the first
    failed check, in this order: [course_id] missing or not a partition
    key (whatever the state of [vector]); then [vector] missing; then the
    dimension of [vector] different from [VECTOR_DIM], with the expected
    and the found dimension in the message (a [vector] field without a
    dimension is found as [None]).  In each case four read-only calls were
    made and nothing was written. *)
Theorem init_milvus_schema_first_failed_check settings w srv c :
  milvus_net w !! (MILVUS_HOST settings, MILVUS_PORT settings) = Some srv ->
  srv !! MILVUS_COLLECTION_NAME settings = Some c ->
  let fs := fields_by_name (fields (coll_schema c)) in
  let w' :=
    connected settings
      (emits [EvMilvusConnect (MILVUS_HOST settings) (MILVUS_PORT settings);
              EvHasCollection (MILVUS_COLLECTION_NAME settings);
              EvLog "[Milvus] Collection '%s' already exists"
                    [MILVUS_COLLECTION_NAME settings];
              EvCollectionOpen (MILVUS_COLLECTION_NAME settings)] w) in
  (fs !! "course_id" = None ->
   init_milvus_schema settings w =
     (Raise (mkExn MilvusException MsgCourseIdNotPartitionKey), w')) /\
  (forall f, fs !! "course_id" = Some f -> is_partition_key f = false ->
   init_milvus_schema settings w =
     (Raise (mkExn MilvusException MsgCourseIdNotPartitionKey), w')) /\
  (forall f, fs !! "course_id" = Some f -> is_partition_key f = true ->
   fs !! "vector" = None ->
   init_milvus_schema settings w =
     (Raise (mkExn MilvusException MsgMissingVectorField), w')) /\
  (forall f v, fs !! "course_id" = Some f -> is_partition_key f = true ->
   fs !! "vector" = Some v -> dim v ≠ Some (VECTOR_DIM settings) ->
   init_milvus_schema settings w =
     (Raise (mkExn MilvusException
               (MsgVectorDimMismatch (VECTOR_DIM settings) (dim v))), w')) /\
  read_only_step w w'.
Proof.
  intros Hnet Hc fs w'.
  rewrite (init_milvus_schema_existing settings w srv c Hnet Hc).
  fold fs. fold w'.
  unfold validate_milvus_fields, course_id_not_partition_key.
  split; [|split; [|split; [|split]]].
  - by intros ->.
  - by intros f -> ->.
  - by intros f -> -> ->.
  - intros f v -> -> -> Hd. simpl. by rewrite bool_decide_false.
  - by apply read_only_connected_emits.
Qed.

Lemma init_milvus_schema_first_failed_check_witness :
  exists w',
    init_milvus_schema settings0 world_milvus_dim_768 =
      (Raise (mkExn MilvusException (MsgVectorDimMismatch 384 (Some 768))), w') /\
    read_only_step world_milvus_dim_768 w'.
Proof.
  destruct (init_milvus_schema_first_failed_check settings0
              world_milvus_dim_768 {[ "kb" := collection_dim_768 ]}
              collection_dim_768 eq_refl eq_refl)
    as (_ & _ & _ & Hdim & Hro).
  eexists. split; [| exact Hro].
  apply (Hdim
           {| name := "course_id"; dtype := INT64; is_primary := false;
              auto_id := false; is_partition_key := true; dim := None;
              max_length := None; fdescription := "" |}
           {| name := "vector"; dtype := FLOAT_VECTOR; is_primary := false;
              auto_id := false; is_partition_key := false;
              dim := Some 768; max_length := None; fdescription := "" |}).
  - reflexivity.
  - reflexivity.
  - reflexivity.
  - simpl. discriminate.
Defined.

(** *** What a run does to the tables of the servers *)

Lemma redis_index_at_insert w w' addr srv index ix a i :
  redis_net w !! addr = Some srv ->
  srv !! index = None ->
  redis_net w' = <[addr := <[index := ix]> srv]> (redis_net w) ->
  redis_index_at w' a i =
  if decide ((a, i) = (addr, index)) then Some ix else redis_index_at w a i.
Proof.
  intros Hnet Hix Hw. unfold redis_index_at. rewrite Hw.
  destruct (decide (a = addr)) as [->|Ha].
  - rewrite lookup_insert_eq, Hnet. simpl.
    destruct (decide (i = index)) as [->|Hi].
    + rewrite lookup_insert_eq. by rewrite decide_True.
    + rewrite lookup_insert_ne by done. rewrite decide_False by congruence. done.
  - rewrite lookup_insert_ne by done. rewrite decide_False by congruence. done.
Qed.

Lemma milvus_collection_at_insert w w' addr srv coll c a i :
  milvus_net w !! addr = Some srv ->
  srv !! coll = None ->
  milvus_net w' = <[addr := <[coll := c]> srv]> (milvus_net w) ->
  milvus_collection_at w' a i =
  if decide ((a, i) = (addr, coll)) then Some c else milvus_collection_at w a i.
Proof.
  intros Hnet Hc Hw. unfold milvus_collection_at. rewrite Hw.
  destruct (decide (a = addr)) as [->|Ha].
  - rewrite lookup_insert_eq, Hnet. simpl.
    destruct (decide (i = coll)) as [->|Hi].
    + rewrite lookup_insert_eq. by rewrite decide_True.
    + rewrite lookup_insert_ne by done. rewrite decide_False by congruence. done.
  - rewrite lookup_insert_ne by done. rewrite decide_False by congruence. done.
Qed.

(** X5.  Whatever its outcome, [init_redis_schema] never removes or
    changes an index: every index of every Redis server is there
    afterwards, unchanged.  The only entry that can differ is the
    configured index name on the configured server, and only by coming
    into existence; no server appears or disappears. *)
Theorem init_redis_schema_preserves_indexes settings w addr index :
  (forall ix, redis_index_at w addr index = Some ix ->
              redis_index_at (init_redis_schema settings w).2 addr index
                = Some ix) /\
  ((addr, index) ≠
     ((REDIS_HOST settings, REDIS_PORT settings), REDIS_INDEX_NAME settings) ->
   redis_index_at (init_redis_schema settings w).2 addr index
     = redis_index_at w addr index) /\
  (is_Some (redis_net (init_redis_schema settings w).2 !! addr) <->
   is_Some (redis_net w !! addr)).
Proof.
  redis_cases settings w srv ix Hnet Hix Hv; try done.
  cbn [snd].
  match goal with
  | |- context [redis_index_at (set_redis_net ?m ?x) addr index] =>
      rewrite (redis_index_at_insert w (set_redis_net m x) _ srv _ _
                 addr index Hnet Hix eq_refl)
  end.
  split; [|split].
  - intros ix0 H0. case_decide as Heq; [|done].
    injection Heq as -> ->. unfold redis_index_at in H0.
    rewrite Hnet in H0. simpl in H0. congruence.
  - intros Hne. by rewrite decide_False.
  - destruct (decide (addr = (REDIS_HOST settings, REDIS_PORT settings)))
      as [->|Hne].
    + simpl. rewrite lookup_insert_eq, Hnet. split; eauto.
    + simpl. by rewrite lookup_insert_ne.
Qed.

Lemma init_redis_schema_preserves_indexes_witness :
  redis_index_at (init_redis_schema settings0 world_redis_mismatch).2
                 ("redis", 6379) "cache_idx" = Some index_without_counters.
Proof.
  destruct (init_redis_schema_preserves_indexes settings0 world_redis_mismatch
              ("redis", 6379) "cache_idx") as (Hkeep & _ & _).
  apply Hkeep. reflexivity.
Defined.

(** X6.  Whatever its outcome, [init_milvus_schema] never removes or
    changes a collection: every collection of every Milvus server is there
    afterwards with the same schema, consistency level and indexes.  The
    only entry that can differ is the configured collection name on the
    configured server, and only by coming into existence; no server
    appears or disappears. *)
Theorem init_milvus_schema_preserves_collections settings w addr coll :
  (forall c, milvus_collection_at w addr coll = Some c ->
             milvus_collection_at (init_milvus_schema settings w).2 addr coll
               = Some c) /\
  ((addr, coll) ≠
     ((MILVUS_HOST settings, MILVUS_PORT settings),
      MILVUS_COLLECTION_NAME settings) ->
   milvus_collection_at (init_milvus_schema settings w).2 addr coll
     = milvus_collection_at w addr coll) /\
  (is_Some (milvus_net (init_milvus_schema settings w).2 !! addr) <->
   is_Some (milvus_net w !! addr)).
Proof.
  milvus_cases settings w srv c Hnet Hc Hv; try done.
  cbn [snd].
  match goal with
  | |- context [milvus_collection_at (set_milvus_net ?m ?x) addr coll] =>
      rewrite (milvus_collection_at_insert w (set_milvus_net m x) _ srv _ _
                 addr coll Hnet Hc eq_refl)
  end.
  split; [|split].
  - intros c0 H0. case_decide as Heq; [|done].
    injection Heq as -> ->. unfold milvus_collection_at in H0.
    rewrite Hnet in H0. simpl in H0. congruence.
  - intros Hne. by rewrite decide_False.
  - destruct (decide (addr = (MILVUS_HOST settings, MILVUS_PORT settings)))
      as [->|Hne].
    + simpl. rewrite lookup_insert_eq, Hnet. split; eauto.
    + simpl. by rewrite lookup_insert_ne.
Qed.

Lemma init_milvus_schema_preserves_collections_witness :
  milvus_collection_at (init_milvus_schema settings0 world_milvus_dim_768).2
                       ("milvus", 19530) "kb" = Some collection_dim_768.
Proof.
  destruct (init_milvus_schema_preserves_collections settings0
              world_milvus_dim_768 ("milvus", 19530) "kb") as (Hkeep & _ & _).
  apply Hkeep. reflexivity.
Defined.

(** *** When the initialisers return normally *)

Lemma init_milvus_schema_ok_ready settings w w' :
  init_milvus_schema settings w = (Ok tt, w') -> milvus_ready settings w.
Proof.
  intros Hrun. unfold milvus_ready.
  milvus_cases settings w srv c Hnet Hc Hv; try discriminate;
    exists srv; rewrite Hc; done.
Qed.

Lemma init_milvus_schema_ok_validated settings w w' :
  init_milvus_schema settings w = (Ok tt, w') -> milvus_validated settings w'.
Proof.
  intros Hrun. unfold milvus_validated, milvus_collection_at.
  milvus_cases settings w srv c Hnet Hc Hv; try discriminate;
    injection Hrun as <-; simpl.
  - exists c. rewrite Hnet. simpl. by rewrite Hc.
  - eexists. rewrite lookup_insert_eq. simpl. rewrite lookup_insert_eq.
    split; [done | apply created_collection_valid].
Qed.

(** X7.  A normal return of [init_redis_schema] is always a creation: it
    happens only when the configured Redis server answers and the
    configured index name was free, and the server then holds, under that
    name, the index of the creation branch.  Over an existing index the
    function never returns normally. *)
Theorem init_redis_schema_ok_only_by_creating settings w w' :
  init_redis_schema settings w = (Ok tt, w') ->
  redis_free settings w /\ redis_created settings w'.
Proof. apply init_redis_schema_ok_created. Qed.

Lemma init_redis_schema_ok_only_by_creating_witness :
  redis_free settings0 fresh_world /\
  redis_created settings0 (init_redis_schema settings0 fresh_world).2.
Proof.
  apply (init_redis_schema_ok_only_by_creating settings0 fresh_world).
  vm_compute. reflexivity.
Defined.

(** X8.  [init_milvus_schema] returns normally only when the configured
    Milvus server answers and the configured collection name is either
    free or names a collection with [course_id] as partition key and
    [vector] of dimension [VECTOR_DIM]; and whenever it returns normally,
    the server holds the configured collection in that state. *)
Theorem init_milvus_schema_ok_only_if_ready settings w w' :
  init_milvus_schema settings w = (Ok tt, w') ->
  milvus_ready settings w /\ milvus_validated settings w'.
Proof.
  intros Hrun. split.
  - by eapply init_milvus_schema_ok_ready.
  - by eapply init_milvus_schema_ok_validated.
Qed.

Lemma init_milvus_schema_ok_only_if_ready_witness :
  milvus_ready settings0 fresh_world /\
  milvus_validated settings0 (init_milvus_schema settings0 fresh_world).2.
Proof.
  apply (init_milvus_schema_ok_only_if_ready settings0 fresh_world).
  vm_compute. reflexivity.
Defined.

(* ===================================================================== *)
(** ** Further properties of [main] and of the process                     *)
(* ===================================================================== *)

Lemma milvus_ready_net settings w w' :
  milvus_net w' = milvus_net w ->
  milvus_ready settings w' <-> milvus_ready settings w.
Proof. intros E. unfold milvus_ready. by rewrite E. Qed.

Lemma redis_created_net settings w w' :
  redis_net w' = redis_net w ->
  redis_created settings w' <-> redis_created settings w.
Proof. intros E. unfold redis_created, redis_index_at. by rewrite E. Qed.

Lemma main_ok_inv settings w w' :
  main settings w = (Ok tt, w') ->
  redis_free settings w /\ milvus_ready settings w /\
  serving w' /\ redis_created settings w' /\ milvus_validated settings w'.
Proof.
  rewrite main_unfold. intros Hrun.
  pose proof (init_redis_schema_redis_step settings (emit EvAddMiddleware w))
    as (Hm & _ & _).
  destruct (init_redis_schema settings (emit EvAddMiddleware w))
    as [[[]|e1] w1] eqn:Hr; [|discriminate].
  pose proof (init_milvus_schema_milvus_step settings w1) as (Hnet & _).
  destruct (init_milvus_schema settings w1) as [[[]|e2] w2] eqn:Hmv;
    [|discriminate].
  injection Hrun as <-. simpl in Hm, Hnet.
  destruct (init_redis_schema_ok_created _ _ _ Hr) as [Hfree Hcr].
  split; [exact Hfree|].
  split; [apply (milvus_ready_net settings w w1 Hm);
          exact (init_milvus_schema_ok_ready _ _ _ Hmv)|].
  split; [apply serving_emit_listener|]. split.
  - by apply (redis_created_net settings w1 _ Hnet).
  - exact (init_milvus_schema_ok_validated _ _ _ Hmv).
Qed.

(** X9.  [main] gets as far as [uvicorn.run] only when both configured
    servers answer, the configured Redis index name was free, and the
    configured collection name was free or named a collection that passes
    the validation; when the listener is started, the Redis server holds
    the index of the creation branch and the Milvus server holds the
    configured collection with [course_id] as partition key and [vector]
    of dimension [VECTOR_DIM]. *)
Theorem main_ok_only_if_stores_ready settings w w' :
  main settings w = (Ok tt, w') ->
  redis_free settings w /\ milvus_ready settings w /\
  serving w' /\ redis_created settings w' /\ milvus_validated settings w'.
Proof. apply main_ok_inv. Qed.

Lemma main_ok_only_if_stores_ready_witness :
  redis_free settings0 fresh_world /\ milvus_ready settings0 fresh_world /\
  serving (main settings0 fresh_world).2 /\
  redis_created settings0 (main settings0 fresh_world).2 /\
  milvus_validated settings0 (main settings0 fresh_world).2.
Proof.
  apply (main_ok_only_if_stores_ready settings0 fresh_world).
  vm_compute. reflexivity.
Defined.

(** X10.  [main] initialises Redis first and stops at its failure: when
    [init_redis_schema] raises, [main] raises the same exception (a
    [RedisError], or the [TypeError] of an existing index), and Milvus has
    not been contacted: no connection attempt, no alias registered, no
    collection touched; after the middleware was added only Redis calls
    and log lines happened. *)
Theorem main_redis_failure_skips_milvus settings w e w1 :
  init_redis_schema settings (emit EvAddMiddleware w) = (Raise e, w1) ->
  main settings w = (Raise e, w1) /\
  (exn_class e = RedisError \/ exn_class e = TypeError) /\
  milvus_net w1 = milvus_net w /\
  milvus_conns w1 = milvus_conns w /\
  exists es, trace w1 = trace w ++ EvAddMiddleware :: es /\
             forallb redis_event es = true.
Proof.
  intros Hrun. rewrite main_unfold, Hrun. split; [done|].
  redis_cases settings (emit EvAddMiddleware w) srv ix Hnet Hix Hv;
    try discriminate; injection Hrun as <- <-;
    (split; [simpl; auto|]); (repeat split; try done);
    eexists; (split; [simpl; rewrite <- app_assoc; reflexivity | done]).
Qed.

Lemma main_redis_failure_skips_milvus_witness :
  exists e w1,
    main settings0 world_offline = (Raise e, w1) /\
    (exn_class e = RedisError \/ exn_class e = TypeError) /\
    milvus_net w1 = milvus_net world_offline /\
    milvus_conns w1 = milvus_conns world_offline /\
    exists es, trace w1 = trace world_offline ++ EvAddMiddleware :: es /\
               forallb redis_event es = true.
Proof.
  eexists _, _.
  apply (main_redis_failure_skips_milvus settings0 world_offline).
  reflexivity.
Defined.

(** X11.  Starting again fails: after a run of [main] that reached the
    listener, a further run of [main] over the stores it left finds the
    Redis index, ends in the [TypeError] of [init_redis_schema] right
    after FT.INFO, and neither contacts Milvus nor starts the listener;
    it writes to neither store. *)
Theorem main_again_after_success_fails settings w w' :
  main settings w = (Ok tt, w') ->
  exists w'',
    main settings w' = (Raise (mkExn TypeError MsgListIndices), w'') /\
    read_only_step w' w'' /\
    trace w'' =
      trace w' ++
        [EvAddMiddleware;
         EvRedisPing (REDIS_HOST settings) (REDIS_PORT settings);
         EvFtInfo (REDIS_INDEX_NAME settings);
         EvLog "[Redis] Index '%s' already exists" [REDIS_INDEX_NAME settings]].
Proof.
  intros Hrun.
  destruct (main_ok_inv settings w w' Hrun) as (_ & _ & _ & Hcr & _).
  rewrite main_unfold.
  rewrite (init_redis_schema_created settings (emit EvAddMiddleware w'))
    by exact Hcr.
  eexists. split; [reflexivity|].
  assert (Htr : forall es1 e1,
            trace (emits es1 (emit e1 w')) = trace w' ++ (e1 :: es1)).
  { intros. simpl. rewrite <- !app_assoc. reflexivity. }
  split.
  - repeat split. eexists. split; [apply Htr | done].
  - rewrite Htr. reflexivity.
Qed.

Lemma main_again_after_success_fails_witness :
  exists w'',
    main settings0 (main settings0 fresh_world).2 =
      (Raise (mkExn TypeError MsgListIndices), w'') /\
    read_only_step (main settings0 fresh_world).2 w''.
Proof.
  assert (Hrun : main settings0 fresh_world
                 = (Ok tt, (main settings0 fresh_world).2))
    by (vm_compute; reflexivity).
  destruct (main_again_after_success_fails settings0 fresh_world
              (main settings0 fresh_world).2 Hrun) as (w'' & H1 & H2 & _).
  exists w''. split; [exact H1 | exact H2].
Defined.

(** X12.  Each initialiser keeps to its own store, whatever its outcome:
    [init_redis_schema] issues only Redis calls and log lines and leaves
    every Milvus server and the connection aliases as they were;
    [init_milvus_schema] issues only Milvus calls and log lines and leaves
    every Redis server as it was. *)
Theorem initialisers_keep_to_their_store settings w :
  (milvus_net (init_redis_schema settings w).2 = milvus_net w /\
   milvus_conns (init_redis_schema settings w).2 = milvus_conns w /\
   extends redis_event w (init_redis_schema settings w).2) /\
  (redis_net (init_milvus_schema settings w).2 = redis_net w /\
   extends milvus_event w (init_milvus_schema settings w).2).
Proof.
  split.
  - redis_cases settings w srv ix Hnet Hix Hv;
      (repeat split; try done); eexists; (split; [reflexivity | done]).
  - milvus_cases settings w srv c Hnet Hc Hv;
      (repeat split; try done); eexists; (split; [reflexivity | done]).
Qed.

(** X13.  The process as a whole: [server.py] run as a script reaches the
    listener only when the settings can be constructed and, for these
    settings, both servers answer, the Redis index name was free and the
    collection name was free or valid; when it does, both stores hold the
    schema of these settings. *)
Theorem server_process_ok_only_if (parse_int : string -> option Z)
    (forwards_extra : string -> bool)
    (environ dotenv : gmap string string) (w w' : World) :
  server_process parse_int forwards_extra environ dotenv w = (Ok tt, w') ->
  exists settings,
    Settings_new parse_int forwards_extra environ dotenv = Ok settings /\
    redis_free settings w /\ milvus_ready settings w /\
    serving w' /\ redis_created settings w' /\
    milvus_validated settings w'.
Proof.
  unfold server_process.
  destruct (Settings_new parse_int forwards_extra environ dotenv)
    as [settings|e];
    [|discriminate].
  intros Hrun. exists settings. split; [done|].
  by apply (main_ok_inv settings w).
Qed.

Lemma server_process_ok_only_if_witness :
  exists settings,
    Settings_new decimal_int nonempty_value env0 ∅ = Ok settings /\
    redis_free settings fresh_world /\ milvus_ready settings fresh_world /\
    serving (server_process decimal_int nonempty_value env0 ∅
               fresh_world).2 /\
    redis_created settings
      (server_process decimal_int nonempty_value env0 ∅ fresh_world).2 /\
    milvus_validated settings
      (server_process decimal_int nonempty_value env0 ∅ fresh_world).2.
Proof.
  apply (server_process_ok_only_if decimal_int nonempty_value env0 ∅
           fresh_world).
  vm_compute. reflexivity.
Defined.

(** X15.  The exceptions that leave [init_redis_schema]: a [RedisError]
    "Redis connection failed: ...", a [RedisError] "Failed to create Redis
    index: ...", or the [TypeError] raised while the attributes of an
    existing index are read.  The schema-mismatch message never leaves
    the function, and after any exception both stores are as they
    were. *)
Theorem init_redis_schema_exceptions settings w e w' :
  init_redis_schema settings w = (Raise e, w') ->
  ((exn_class e = RedisError /\
    ((exists cause, exn_msg e = MsgRedisConnectionFailed cause) \/
     (exists cause, exn_msg e = MsgRedisCreateFailed cause))) \/
   (exn_class e = TypeError /\ exn_msg e = MsgListIndices)) /\
  is_schema_mismatch (exn_msg e) = false /\
  redis_net w' = redis_net w /\ milvus_net w' = milvus_net w.
Proof.
  intros Hrun.
  redis_cases settings w srv ix Hnet Hix Hv; try discriminate;
    injection Hrun as <- <-; simpl; (split; [|done]); eauto 10.
Qed.

Lemma init_redis_schema_exceptions_witness :
  exists e w',
    init_redis_schema settings0 world_redis_mismatch = (Raise e, w') /\
    exn_class e = TypeError /\
    is_schema_mismatch (exn_msg e) = false /\
    redis_net w' = redis_net world_redis_mismatch.
Proof.
  eexists _, _. split; [vm_compute; reflexivity|].
  edestruct (init_redis_schema_exceptions settings0 world_redis_mismatch)
    as (_ & Hs & Hn & _); [vm_compute; reflexivity|].
  split; [reflexivity|]. split; [exact Hs | exact Hn].
Defined.
